(** * GRV: key-sequence resolver and terminal rendering engine

    A shallow embedding of [window.go] (the cell grid, the line writer and
    the window operations) and of the key-sequence resolver exercised by
    [cmd/grv/input_buffer_test.go], with the properties stated about them. *)

From Stdlib Require Import ZArith NArith Lia Bool Ascii String.
From stdpp Require Import base option list.

(* ===================================================================== *)
(** ** Key-sequence resolver *)
(* ===================================================================== *)

Module InputBuffer.

Local Open Scope string_scope.

(** Modelled from the spec: the view identifiers; only the three named by
    the tests are distinguished, the others are numbered. *)
Inductive ViewID : Type :=
  | ViewMain
  | ViewHistory
  | ViewCommit
  | ViewOther (n : nat).

Definition ViewHierarchy : Type := list ViewID.

(** Modelled from the spec: the action tags, with the distinguished no-op
    [ActionNone]; the tests name [ActionNone] and [ActionFirstLine]. *)
Inductive ActionType : Type :=
  | ActionNone
  | ActionFirstLine
  | ActionOther (tag : nat).

(** [Action{ActionType: t}] as the tests build it. *)
Record Action : Type := mkAction { actionType : ActionType }.

(** Modelled from the spec: a binding is an action binding or a keystring
    (macro) binding; [newActionBinding] and [newKeystringBinding] of the
    tests are the two constructors.  An action binding of [ActionNone] is
    how the binding provider reports that the keystring has no binding. *)
Inductive Binding : Type :=
  | newActionBinding (a : ActionType)
  | newKeystringBinding (mapped : string).

(** The binding provider consumed by the resolver:
    [Binding(viewHierarchy, keystring) -> (binding, isPrefix)]. *)
Definition KeyBindings : Type := ViewHierarchy -> string -> Binding * bool.

Definition isActionNone (a : ActionType) : bool :=
  match a with ActionNone => true | _ => false end.

(** The first [i] characters of the buffer and what follows them. *)
Definition prefixOf (i : nat) (buffer : string) : string :=
  substring 0 i buffer.

Definition afterPrefix (i : nat) (buffer : string) : string :=
  substring i (String.length buffer - i) buffer.

(** Outcome of the scan over the increasing prefixes of the buffer. *)
Inductive ScanResult : Type :=
  | Decisive (i : nat) (b : Binding)
  | StillAmbiguous.

(** Modelled from the spec: steps 2 and 3 of [Process].  [remaining] counts
    the prefixes still to query, [i] is the length of the next one. *)
Fixpoint scan (keyBindings : KeyBindings) (viewHierarchy : ViewHierarchy)
    (buffer : string) (remaining i : nat) : ScanResult :=
  match remaining with
  | O => StillAmbiguous
  | S remaining' =>
      let '(b, isPrefix) := keyBindings viewHierarchy (prefixOf i buffer) in
      if isPrefix then scan keyBindings viewHierarchy buffer remaining' (S i)
      else Decisive i b
  end.

(** [ambiguousBelow kb vh buf lo hi]: every prefix of [buf] of a length from
    [lo] up to, not including, [hi] is reported by the binding provider as a
    prefix of a longer binding. *)
Definition ambiguousBelow (keyBindings : KeyBindings)
    (viewHierarchy : ViewHierarchy) (buf : string) (lo hi : nat) : Prop :=
  forall j, lo <= j < hi -> snd (keyBindings viewHierarchy (prefixOf j buf)) = true.

(** The resolver's state: its pending buffer. *)
Record InputBuffer : Type := mkInputBuffer { buffer : string }.

Definition NewInputBuffer : InputBuffer := mkInputBuffer "".

(** Modelled from the spec: [Append(text)] appends raw characters. *)
Definition Append (ib : InputBuffer) (text : string) : InputBuffer :=
  mkInputBuffer (buffer ib ++ text).

(** Modelled from the spec: [Process], steps 1 to 7 of section 4.1, whose
    implementation is not among the sources.  The spec names no cycle guard
    for cascading macros, so every macro expansion spends one unit of
    [fuel]; [None] means the fuel ran out before a result was reached. *)
Fixpoint Process (keyBindings : KeyBindings) (fuel : nat) (ib : InputBuffer)
    (viewHierarchy : ViewHierarchy) : option (Action * string * InputBuffer) :=
  match buffer ib with
  | EmptyString => Some (mkAction ActionNone, "", ib)
  | String firstChar rest =>
      let buf := buffer ib in
      match scan keyBindings viewHierarchy buf (String.length buf) 1 with
      | StillAmbiguous => Some (mkAction ActionNone, "", ib)
      | Decisive i (newKeystringBinding mapped) =>
          match fuel with
          | O => None
          | S fuel' =>
              Process keyBindings fuel'
                (mkInputBuffer (mapped ++ afterPrefix i buf)) viewHierarchy
          end
      | Decisive i (newActionBinding a) =>
          if isActionNone a && Nat.eqb i (String.length buf) then
            Some (mkAction ActionNone, String firstChar "", mkInputBuffer rest)
          else
            Some (mkAction a, prefixOf i buf, mkInputBuffer (afterPrefix i buf))
      end
  end.

(** The driving loop of the tests: one [Append] of a single key followed by
    one [Process], for every key in turn; the results are collected. *)
Fixpoint feedKeys (keyBindings : KeyBindings) (fuel : nat)
    (viewHierarchy : ViewHierarchy) (ib : InputBuffer) (keys : string)
    : option (list (Action * string) * InputBuffer) :=
  match keys with
  | EmptyString => Some ([], ib)
  | String key keys' =>
      match Process keyBindings fuel (Append ib (String key "")) viewHierarchy with
      | None => None
      | Some (a, ks, ib') =>
          match feedKeys keyBindings fuel viewHierarchy ib' keys' with
          | None => None
          | Some (out, ib'') => Some ((a, ks) :: out, ib'')
          end
      end
  end.

(** The binding table of [TestKeystringBindingIsExpandedInPlace]. *)
Definition macroBindings : KeyBindings := fun _ ks =>
  if String.eqb ks "a" then (newKeystringBinding "bb", false)
  else if String.eqb ks "b" then (newActionBinding ActionNone, true)
  else if String.eqb ks "bb" then (newActionBinding ActionNone, true)
  else if String.eqb ks "bbb" then (newActionBinding ActionFirstLine, false)
  else (newActionBinding ActionNone, false).

(** A binding table like the one of [TestKeystringBindingIsExpandedInPlace]
    in which the replacement and the remainder differ, so that the order of
    the splice shows: ["q"] stands for ["xy"], and ["xyz"] is bound. *)
Definition spliceBindings : KeyBindings := fun _ ks =>
  if String.eqb ks "q" then (newKeystringBinding "xy", false)
  else if String.eqb ks "x" then (newActionBinding ActionNone, true)
  else if String.eqb ks "xy" then (newActionBinding ActionNone, true)
  else if String.eqb ks "xyz" then (newActionBinding ActionFirstLine, false)
  else (newActionBinding ActionNone, false).

(** The binding table of [TestMultiKeyPressIsMappedToBinding]. *)
Definition multiKeyBindings : KeyBindings := fun _ ks =>
  if String.eqb ks "a" then (newActionBinding ActionNone, true)
  else if String.eqb ks "ab" then (newActionBinding ActionNone, true)
  else if String.eqb ks "abc" then (newActionBinding ActionFirstLine, false)
  else (newActionBinding ActionNone, false).

(** The binding table of
    [TestPotentialPrefixMatchIsReturnedAsSeparateKeysWhenFullInputDoesNotMatchBinding]. *)
Definition deadEndBindings : KeyBindings := fun _ ks =>
  if String.eqb ks "a" then (newActionBinding ActionNone, true)
  else (newActionBinding ActionNone, false).

Definition testHierarchy : ViewHierarchy := [ViewMain; ViewHistory; ViewCommit].

End InputBuffer.

(* ===================================================================== *)
(** ** Terminal rendering engine: [window.go] *)
(* ===================================================================== *)

Module Window.

Local Open Scope N_scope.

(** *** Machine integers and panics *)

(** Go's [uint] is taken to be 64 bits wide; values are of type [N] and
    every arithmetic operation writes out its wrap-around. *)
Definition uintModulus : N := 2 ^ 64.

Definition uadd (a b : N) : N := (a + b) mod uintModulus.

Definition usub (a b : N) : N :=
  (a mod uintModulus + uintModulus - b mod uintModulus) mod uintModulus.

(** The conversion [uint(x)] of a signed [int]. *)
Definition uintOfInt (x : Z) : N := Z.to_N (x mod Z.of_N uintModulus).

(** The conversion [uint(len(s))] of a slice length. *)
Definition uintOfLen (n : nat) : N := N.of_nat n mod uintModulus.

(** The two run-time panics the rendering code can raise. *)
Inductive panic : Type :=
  | IndexOutOfRange
  | DivideByZero.

Inductive result (A : Type) : Type :=
  | Ok (a : A)
  | Panic (p : panic).
Arguments Ok {A} a.
Arguments Panic {A} p.

Definition bind {A B : Type} (r : result A) (k : A -> result B) : result B :=
  match r with
  | Ok a => k a
  | Panic p => Panic p
  end.

Notation "'do' x <- r ; k" := (bind r (fun x => k))
  (at level 10, x name, r at level 100, k at level 200).

(** A counted loop [for i := lo; i < hi; i++ { body }] over a state. *)
Fixpoint forLoop {S : Type} (count : nat) (i : N) (body : N -> S -> result S)
    (s : S) : result S :=
  match count with
  | O => Ok s
  | Datatypes.S count' => do s' <- body i s; forLoop count' (i + 1) body s'
  end.

Definition forRange {S : Type} (lo hi : N) (body : N -> S -> result S)
    (s : S) : result S :=
  forLoop (N.to_nat (hi - lo)) lo body s.

(** *** Data model *)

Definition rune : Type := Z.
Definition ThemeComponentId : Type := Z.

(** [gc.Char], the curses attribute and glyph word. *)
Definition Char : Type := N.

Record RenderedCodePoint : Type := mkRenderedCodePoint {
  width : N;
  codePoint : rune
}.

Record CellStyle : Type := mkCellStyle {
  componentId : ThemeComponentId;
  attr : Char;
  acs_char : Char
}.

(** [codePoints] is a [bytes.Buffer] written only through [Reset] and
    [WriteRune]; it is kept as the sequence of code points written. *)
Record Cell : Type := mkCell {
  codePoints : list rune;
  style : CellStyle
}.

Record Line : Type := mkLine { cells : list Cell }.

Record Cursor : Type := mkCursor { row : N; col : N }.

(** [Config] is consulted for one option only, [GetInt(CV_TAB_WIDTH)]. *)
Record Config : Type := mkConfig { GetInt_CV_TAB_WIDTH : Z }.

Record LineBuilder : Type := mkLineBuilder {
  line : Line;
  cellIndex : N;
  column : N;
  startColumn : N;
  config : Config
}.

Record ViewDimension : Type := mkViewDimension { vdRows : N; vdCols : N }.

Record Window : Type := mkWindow {
  id : string;
  rows : N;
  cols : N;
  lines : list Line;
  startRow : N;
  startCol : N;
  winConfig : Config;
  cursor : option Cursor
}.

(** The errors built with [fmt.Errorf]. *)
Inductive error : Type :=
  | InvalidRowIndex (rowIndex rows : N)
  | InvalidColIndex (colIndex cols : N)
  | ColumnMustBePositive.

(** *** Checked slice accesses *)

(** [line.cells[i]]: a panic when [i] is not below the slice length. *)
Definition cellAt (l : Line) (i : N) : result Cell :=
  match cells l !! N.to_nat i with
  | Some c => Ok c
  | None => Panic IndexOutOfRange
  end.

(** The cells are held by pointer: updating the cell reached through
    [line.cells[i]] updates the line in place. *)
Definition updateCell (l : Line) (i : N) (f : Cell -> Cell) : result Line :=
  do c <- cellAt l i; Ok (mkLine (<[N.to_nat i := f c]> (cells l))).

Definition lineAt (ls : list Line) (i : N) : result Line :=
  match ls !! N.to_nat i with
  | Some l => Ok l
  | None => Panic IndexOutOfRange
  end.

(** *** Cell mutations *)

(** [cell.codePoints.Reset()] *)
Definition resetCodePoints (c : Cell) : Cell := mkCell [] (style c).

(** [cell.codePoints.WriteRune(r)] *)
Definition writeRune (r : rune) (c : Cell) : Cell :=
  mkCell (codePoints c ++ [r]) (style c).

(** The four assignments of [setCellAndAdvanceIndex] to the cell. *)
Definition setCell (r : rune) (cmp : ThemeComponentId) (c : Cell) : Cell :=
  mkCell [r] (mkCellStyle cmp (attr (style c)) 0).

Definition setAcsChar (g : Char) (c : Cell) : Cell :=
  mkCell (codePoints c) (mkCellStyle (componentId (style c)) (attr (style c)) g).

(** *** Lines and line builders *)

(** [&Cell{}] *)
Definition zeroCell : Cell := mkCell [] (mkCellStyle 0%Z 0 0).

Definition NewLine (cols : N) : Line := mkLine (repeat zeroCell (N.to_nat cols)).

Definition NewLineBuilder (l : Line) (cfg : Config) (startColumn : N) : LineBuilder :=
  mkLineBuilder l 0 1 startColumn cfg.

Definition lenCells (lb : LineBuilder) : N := uintOfLen (length (cells (line lb))).

Definition withLine (lb : LineBuilder) (l : Line) : LineBuilder :=
  mkLineBuilder l (cellIndex lb) (column lb) (startColumn lb) (config lb).

Definition withCellIndex (lb : LineBuilder) (i : N) : LineBuilder :=
  mkLineBuilder (line lb) i (column lb) (startColumn lb) (config lb).

Definition withColumn (lb : LineBuilder) (c : N) : LineBuilder :=
  mkLineBuilder (line lb) (cellIndex lb) c (startColumn lb) (config lb).

Definition setCellAndAdvanceIndex (lb : LineBuilder) (r : rune) (w : N)
    (cmp : ThemeComponentId) : result LineBuilder :=
  if cellIndex lb <? lenCells lb then
    do lb1 <-
      (if startColumn lb <=? column lb then
         do l <- updateCell (line lb) (cellIndex lb) (setCell r cmp);
         Ok (withCellIndex (withLine lb l) (uadd (cellIndex lb) 1))
       else Ok lb);
    Ok (withColumn lb1 (uadd (column lb1) w))
  else Ok lb.

Fixpoint clearLoop (count : nat) (lb : LineBuilder) : result LineBuilder :=
  match count with
  | O => Ok lb
  | S count' =>
      if cellIndex lb <? lenCells lb then
        do l <- updateCell (line lb) (cellIndex lb) resetCodePoints;
        clearLoop count' (withCellIndex (withLine lb l) (uadd (cellIndex lb) 1))
      else Ok lb
  end.

Definition Clear (lb : LineBuilder) (cellNum : N) : result LineBuilder :=
  clearLoop (N.to_nat cellNum) lb.

Definition ToLineStart (lb : LineBuilder) : LineBuilder :=
  mkLineBuilder (line lb) 0 (column lb) 1 (config lb).

Definition appendToPreviousCell (lb : LineBuilder) (r : rune) : result LineBuilder :=
  if 0 <? cellIndex lb then
    do l <- updateCell (line lb) (usub (cellIndex lb) 1) (writeRune r);
    Ok (withLine lb l)
  else Ok lb.

(** *** Code point classification and the line writer *)

Section Rendering.

(** [unicode.IsPrint], [runewidth.RuneWidth] and [nonPrintableCharString]
    belong to libraries and files outside [window.go]. *)
Variable IsPrint : rune -> bool.
Variable RuneWidth : rune -> Z.
Variable nonPrintableCharString : rune -> list rune.

Definition DetermineRenderedCodePoint (r : rune) (column : N) (cfg : Config)
    : result (list RenderedCodePoint) :=
  if negb (IsPrint r) then
    if (r =? 9)%Z then
      let tabWidth := uintOfInt (GetInt_CV_TAB_WIDTH cfg) in
      if tabWidth =? 0 then Panic DivideByZero
      else
        let w := usub tabWidth (usub column 1 mod tabWidth) in
        Ok (repeat (mkRenderedCodePoint 1 32%Z) (N.to_nat w))
    else if negb (r =? 10)%Z && ((r <? 32)%Z || (r =? 127)%Z) then
      Ok (map (mkRenderedCodePoint 1) (nonPrintableCharString r))
    else Ok [mkRenderedCodePoint 1 r]
  else Ok [mkRenderedCodePoint (uintOfInt (RuneWidth r)) r].

(** The inner loop of [AppendWithStyle] over the rendered code points of one
    input code point; [break] leaves the remaining ones unwritten. *)
Fixpoint appendRendered (lb : LineBuilder) (cmp : ThemeComponentId)
    (rs : list RenderedCodePoint) : result LineBuilder :=
  match rs with
  | [] => Ok lb
  | r :: rs' =>
      if lenCells lb <? cellIndex lb then Ok lb
      else
        do lb' <-
          (if 1 <? width r then
             do lb1 <- setCellAndAdvanceIndex lb (codePoint r) (width r) cmp;
             Clear lb1 (usub (width r) 1)
           else if 0 <? width r then
             setCellAndAdvanceIndex lb (codePoint r) (width r) cmp
           else appendToPreviousCell lb (codePoint r));
        appendRendered lb' cmp rs'
  end.

(** [str] is the string [fmt.Sprintf(format, args...)] as the sequence of
    code points that [range] yields. *)
Fixpoint AppendWithStyle (lb : LineBuilder) (cmp : ThemeComponentId)
    (str : list rune) : result LineBuilder :=
  match str with
  | [] => Ok lb
  | r :: str' =>
      do rs <- DetermineRenderedCodePoint r (column lb) (config lb);
      do lb' <- appendRendered lb cmp rs;
      AppendWithStyle lb' cmp str'
  end.

Variable CMP_NONE : ThemeComponentId.

Definition Append (lb : LineBuilder) (str : list rune) : result LineBuilder :=
  AppendWithStyle lb CMP_NONE str.

(** What is written for a code point that is not printable and is no tab:
    its placeholder string for a control character below 32 or 127, the
    code point itself otherwise, a newline included. *)
Definition shownFor (r : rune) : list rune :=
  if negb (r =? 10)%Z && ((r <? 32)%Z || (r =? 127)%Z)
  then nonPrintableCharString r else [r].

(** A printable code point that takes one column, such as the ASCII letters,
    digits and space that [setHeader] assumes a footer to consist of. *)
Definition plainRune (r : rune) : Prop :=
  IsPrint r = true /\ uintOfInt (RuneWidth r) = 1.

(** *** Windows *)

(** The attribute and line-drawing constants of the curses binding. *)
Variables A_NORMAL A_REVERSE A_DIM : Char.
Variables ACS_ULCORNER ACS_URCORNER ACS_LLCORNER ACS_LRCORNER : Char.
Variables ACS_HLINE ACS_VLINE : Char.

Definition NewWindow (id : string) (cfg : Config) : Window :=
  mkWindow id 0 0 [] 0 0 cfg None.

Definition withLines (win : Window) (ls : list Line) : Window :=
  mkWindow (id win) (rows win) (cols win) ls (startRow win) (startCol win)
    (winConfig win) (cursor win).

Definition withCursor (win : Window) (c : option Cursor) : Window :=
  mkWindow (id win) (rows win) (cols win) (lines win) (startRow win)
    (startCol win) (winConfig win) c.

(** A line is held by pointer in [win.lines]: what a line builder wrote to
    the line of row [rowIndex] is what the window holds at that row. *)
Definition storeLine (win : Window) (rowIndex : N) (l : Line) : Window :=
  withLines win (<[N.to_nat rowIndex := l]> (lines win)).

Definition Resize (win : Window) (vd : ViewDimension) : Window :=
  if (rows win =? vdRows vd) && (cols win =? vdCols vd) then win
  else
    mkWindow (id win) (vdRows vd) (vdCols vd)
      (repeat (NewLine (vdCols vd)) (N.to_nat (vdRows vd)))
      (startRow win) (startCol win) (winConfig win) (cursor win).

Definition SetPosition (win : Window) (startRow startCol : N) : Window :=
  mkWindow (id win) (rows win) (cols win) (lines win) startRow startCol
    (winConfig win) (cursor win).

Definition clearedCell : Cell := mkCell [32%Z] (mkCellStyle CMP_NONE A_NORMAL 0).

Definition Window_Clear (win : Window) : Window :=
  withCursor
    (withLines win (map (fun l => mkLine (map (fun _ => clearedCell) (cells l))) (lines win)))
    None.

Definition Window_LineBuilder (win : Window) (rowIndex startColumn : N)
    : result (error + LineBuilder) :=
  if rows win <=? rowIndex then Ok (inl (InvalidRowIndex rowIndex (rows win)))
  else if startColumn =? 0 then Ok (inl ColumnMustBePositive)
  else
    do l <- lineAt (lines win) rowIndex;
    Ok (inr (NewLineBuilder l (winConfig win) startColumn)).

Definition SetRow (win : Window) (rowIndex startColumn : N)
    (cmp : ThemeComponentId) (str : list rune) : result (Window * option error) :=
  do r <- Window_LineBuilder win rowIndex startColumn;
  match r with
  | inl err => Ok (win, Some err)
  | inr lb =>
      do lb' <- AppendWithStyle lb cmp str;
      Ok (storeLine win rowIndex (line lb'), None)
  end.

Definition selectCell (a : Char) (c : Cell) : Cell :=
  mkCell (codePoints c)
    (mkCellStyle CMP_NONE (N.lor (attr (style c)) a) (acs_char (style c))).

Definition SetSelectedRow (win : Window) (rowIndex : N) (active : bool)
    : result (Window * option error) :=
  if rows win <=? rowIndex then
    Ok (win, Some (InvalidRowIndex rowIndex (rows win)))
  else
    let a := if negb active then N.lor A_REVERSE A_DIM else A_REVERSE in
    do l <- lineAt (lines win) rowIndex;
    Ok (storeLine win rowIndex (mkLine (map (selectCell a) (cells l))), None).

Definition IsCursorSet (win : Window) : bool :=
  match cursor win with Some _ => true | None => false end.

Definition SetCursor (win : Window) (rowIndex colIndex : N)
    : Window * option error :=
  if rows win <=? rowIndex then
    (win, Some (InvalidRowIndex rowIndex (rows win)))
  else if cols win <=? colIndex then
    (win, Some (InvalidColIndex colIndex (cols win)))
  else (withCursor win (Some (mkCursor rowIndex colIndex)), None).

(** [text] is [fmt.Sprintf(format, args...)]; the padded format
    [" " + format + " "] expands to [text] between two spaces. *)
Definition paddedHeader (text : list rune) : list rune :=
  32%Z :: text ++ [32%Z].

Definition setHeader (win : Window) (rowIndex : N) (rightJustified : bool)
    (cmp : ThemeComponentId) (text : list rune) : result (Window * option error) :=
  if (rows win <? 3) || (cols win <? 3) then Ok (win, None)
  else
    do r <- Window_LineBuilder win rowIndex 1;
    match r with
    | inl err => Ok (win, Some err)
    | inr lb =>
        let str := paddedHeader text in
        let formattedLen := uintOfLen (length str) in
        if rightJustified && (uadd (cols win) 2 <? formattedLen) then
          Ok (win, None)
        else
          let lb1 :=
            withCellIndex lb
              (if rightJustified then usub (cols win) (uadd 2 formattedLen)
               else 2) in
          let lb2 := withColumn lb1 (uadd (cellIndex lb1) 1) in
          do lb' <- AppendWithStyle lb2 cmp str;
          Ok (storeLine win rowIndex (line lb'), None)
    end.

Definition SetTitle (win : Window) (cmp : ThemeComponentId) (text : list rune)
    : result (Window * option error) :=
  setHeader win 0 false cmp text.

Definition SetFooter (win : Window) (cmp : ThemeComponentId) (text : list rune)
    : result (Window * option error) :=
  if rows win <? 1 then Ok (win, None)
  else setHeader win (usub (rows win) 1) true cmp text.

(** [win.lines[r].cells[c].style.acs_char = g] *)
Definition setAcs (r c : N) (g : Char) (win : Window) : result Window :=
  do l <- lineAt (lines win) r;
  do l' <- updateCell l c (setAcsChar g);
  Ok (storeLine win r l').

Definition DrawBorder (win : Window) : result Window :=
  if (rows win <? 3) || (cols win <? 3) then Ok win
  else
    let lastCol := usub (cols win) 1 in
    let lastRow := usub (rows win) 1 in
    do w1 <- setAcs 0 0 ACS_ULCORNER win;
    do w2 <- forRange 1 lastCol (fun i => setAcs 0 i ACS_HLINE) w1;
    do w3 <- setAcs 0 lastCol ACS_URCORNER w2;
    do w4 <- forRange 1 lastRow
               (fun i w => do w' <- setAcs i 0 ACS_VLINE w;
                           setAcs i lastCol ACS_VLINE w') w3;
    do w5 <- setAcs lastRow 0 ACS_LLCORNER w4;
    do w6 <- forRange 1 lastCol (fun i => setAcs lastRow i ACS_HLINE) w5;
    setAcs lastRow lastCol ACS_LRCORNER w6.

Definition ApplyStyle (win : Window) (cmp : ThemeComponentId) : Window :=
  withLines win
    (map (fun l =>
            mkLine (map (fun c =>
                           mkCell (codePoints c)
                             (mkCellStyle cmp (attr (style c)) (acs_char (style c))))
                      (cells l)))
       (lines win)).

(** *** Position and dimensions *)

(** [Min] and [Abs] are helpers of another file; [applyOffset] calls them
    only under [value < 0]. *)
Variable Min : N -> N -> N.
Variable Abs : Z -> N.

Definition applyOffset (value : N) (offset : Z) : N :=
  if value <? 0 then usub value (Min value (Abs offset))
  else uadd value (uintOfInt offset).

Definition OffsetPosition (win : Window) (rowOffset colOffset : Z) : Window :=
  mkWindow (id win) (rows win) (cols win) (lines win)
    (applyOffset (startRow win) rowOffset) (applyOffset (startCol win) colOffset)
    (winConfig win) (cursor win).

Definition Id (win : Window) : string := id win.

Definition Rows (win : Window) : N := rows win.

Definition Cols (win : Window) : N := cols win.

Definition ViewDimensions (win : Window) : ViewDimension :=
  mkViewDimension (rows win) (cols win).

(** The glyph that [DrawBorder] assigns to the cell of row [i] and column
    [j] of a grid of [nrows] by [ncols] cells, if it assigns one. *)
Definition borderGlyph (nrows ncols i j : nat) : option Char :=
  if Nat.eqb i 0 then
    if Nat.eqb j 0 then Some ACS_ULCORNER
    else if Nat.eqb j (ncols - 1) then Some ACS_URCORNER
    else Some ACS_HLINE
  else if Nat.eqb i (nrows - 1) then
    if Nat.eqb j 0 then Some ACS_LLCORNER
    else if Nat.eqb j (ncols - 1) then Some ACS_LRCORNER
    else Some ACS_HLINE
  else if Nat.eqb j 0 || Nat.eqb j (ncols - 1) then Some ACS_VLINE
  else None.

End Rendering.

(** *** Reading the grid *)

(** The cell of row [i] and column [j], when the grid has one. *)
Definition cellOf (win : Window) (i j : nat) : option Cell :=
  match lines win !! i with
  | Some l => cells l !! j
  | None => None
  end.

(** What the line writer keeps from a builder [lb] to the builder [lb'] it
    returns: the number of cells, the start column and the configuration;
    the cell index does not decrease and does not pass the end of the line
    if it was within it; and only cells from the one before the old cell
    index up to, not including, the new cell index can differ. *)
Definition writerStep (lb lb' : LineBuilder) : Prop :=
  length (cells (line lb')) = length (cells (line lb))
  /\ startColumn lb' = startColumn lb
  /\ config lb' = config lb
  /\ cellIndex lb <= cellIndex lb'
  /\ (cellIndex lb <= lenCells lb -> cellIndex lb' <= lenCells lb)
  /\ (forall j, (S j < N.to_nat (cellIndex lb))%nat ->
        cells (line lb') !! j = cells (line lb) !! j)
  /\ (forall j, (N.to_nat (cellIndex lb') <= j)%nat ->
        cells (line lb') !! j = cells (line lb) !! j).

(** [win'] has the dimensions, position, cursor, identifier and
    configuration of [win]. *)
Definition sameFrame (win win' : Window) : Prop :=
  rows win' = rows win /\ cols win' = cols win
  /\ startRow win' = startRow win /\ startCol win' = startCol win
  /\ cursor win' = cursor win
  /\ id win' = id win /\ winConfig win' = winConfig win.

(** [win'] differs from [win] at most in the cells of row [r], which has
    kept its number of cells. *)
Definition onlyRowChanged (r : nat) (win win' : Window) : Prop :=
  sameFrame win win'
  /\ length (lines win') = length (lines win)
  /\ (forall i, i <> r -> lines win' !! i = lines win !! i)
  /\ (forall l l', lines win !! r = Some l -> lines win' !! r = Some l' ->
        length (cells l') = length (cells l)).

(** [win'] is [win] with the glyph override [P i j], where there is one,
    set on the cell of row [i] and column [j]; nothing else differs. *)
Definition paints (P : nat -> nat -> option Char) (win win' : Window) : Prop :=
  sameFrame win win'
  /\ length (lines win') = length (lines win)
  /\ (forall i l l', lines win !! i = Some l -> lines win' !! i = Some l' ->
        length (cells l') = length (cells l))
  /\ (forall i j c, cellOf win i j = Some c ->
        cellOf win' i j
        = Some (match P i j with Some g => setAcsChar g c | None => c end)).

(** *** Well-formed windows *)

(** The grid of a window has [rows] lines of [cols] cells each, and both
    counts are slice lengths, hence below [2^63]. *)
Definition wfWindow (win : Window) : Prop :=
  length (lines win) = N.to_nat (rows win)
  /\ Forall (fun l => length (cells l) = N.to_nat (cols win)) (lines win)
  /\ rows win < 2 ^ 63
  /\ cols win < 2 ^ 63.

(** What a run of width-one code points written from cell [i] onwards
    leaves in the cells of a line. *)
Fixpoint writePlain (cmp : ThemeComponentId) (i : nat) (str : list rune)
    (cs : list Cell) : list Cell :=
  match str with
  | [] => cs
  | r :: str' => writePlain cmp (S i) str' (alter (setCell r cmp) i cs)
  end.

(** *** Sample instances

    Instances of the library functions on which the model can be run:
    printable ASCII has width one, U+4E16 is an ideograph of width two and
    U+0301 a combining accent of width zero; control characters are shown
    in caret notation; tab stops are eight columns apart. *)

Definition sampleIsPrint (r : rune) : bool :=
  ((32 <=? r) && (r <? 127) || (r =? 0x4E16) || (r =? 0x301))%Z.

Definition sampleRuneWidth (r : rune) : Z :=
  if (r =? 0x4E16)%Z then 2%Z else if (r =? 0x301)%Z then 0%Z else 1%Z.

Definition sampleNonPrintable (r : rune) : list rune :=
  if (r =? 127)%Z then [94%Z; 63%Z] else [94%Z; (r + 64)%Z].

Definition sampleConfig : Config := mkConfig 8.

(** A line of two cells holding [x] and [y]. *)
Definition sampleLine : Line :=
  mkLine [mkCell [120%Z] (mkCellStyle 0%Z 0 0); mkCell [121%Z] (mkCellStyle 0%Z 0 0)].

(** A line of two cells holding [x] and [y], the second under the glyph
    override 5. *)
Definition glyphLine : Line :=
  mkLine [mkCell [120%Z] (mkCellStyle 0%Z 0 0); mkCell [121%Z] (mkCellStyle 0%Z 0 5)].

(** A window of three rows and five columns, freshly sized. *)
Definition sampleWindow : Window :=
  Resize (NewWindow "sample" sampleConfig) (mkViewDimension 3 5).

(** A window of one row and two columns, freshly sized. *)
Definition smallWindow : Window :=
  Resize (NewWindow "small" sampleConfig) (mkViewDimension 1 2).

(** A window of three rows and seven columns with its border drawn, the
    glyphs being numbered 1 to 4 for the corners, 5 for the horizontal and
    6 for the vertical bar. *)
Definition framedWindow : Window :=
  match DrawBorder 1 2 3 4 5 6
          (Resize (NewWindow "framed" sampleConfig) (mkViewDimension 3 7)) with
  | Ok win => win
  | Panic _ => NewWindow "framed" sampleConfig
  end.

End Window.

(* ===================================================================== *)
(** ** Properties of the key-sequence resolver *)
(* ===================================================================== *)

Module InputBufferProps.

Import InputBuffer.
Local Open Scope string_scope.

(** *** Strings *)

Lemma prefixOf_full (s : string) : prefixOf (String.length s) s = s.
Proof.
  unfold prefixOf. induction s as [|c s IH]; simpl; [reflexivity|].
  now rewrite IH.
Qed.

Lemma afterPrefix_full (s : string) : afterPrefix (String.length s) s = "".
Proof.
  unfold afterPrefix. rewrite Nat.sub_diag.
  induction s as [|c s IH]; simpl; [reflexivity|exact IH].
Qed.

Lemma prefixOf_append (i : nat) (s t : string) :
  i <= String.length s -> prefixOf i (s ++ t) = prefixOf i s.
Proof.
  unfold prefixOf. revert i.
  induction s as [|c s IH]; intros i Hi; simpl in *.
  - assert (i = 0) as -> by lia. now destruct t.
  - destruct i as [|i]; [reflexivity|].
    rewrite IH by lia. reflexivity.
Qed.

Lemma length_append (s t : string) :
  String.length (s ++ t) = String.length s + String.length t.
Proof. induction s as [|c s IH]; simpl; [reflexivity|now rewrite IH]. Qed.

Lemma append_assoc (s t u : string) : (s ++ t) ++ u = s ++ (t ++ u).
Proof. induction s as [|c s IH]; simpl; [reflexivity|now rewrite IH]. Qed.

Lemma append_empty_r (s : string) : s ++ "" = s.
Proof. induction s as [|c s IH]; simpl; [reflexivity|now rewrite IH]. Qed.

(** *** The scan *)

Section Scan.

Variable keyBindings : KeyBindings.
Variable viewHierarchy : ViewHierarchy.

Local Abbreviation ambiguousBelow :=
  (InputBuffer.ambiguousBelow keyBindings viewHierarchy).

Lemma scan_still_ambiguous (buf : string) (remaining i : nat) :
  ambiguousBelow buf i (i + remaining) ->
  scan keyBindings viewHierarchy buf remaining i = StillAmbiguous.
Proof.
  revert i. induction remaining as [|k IH]; intros i H; simpl; [reflexivity|].
  pose proof (H i ltac:(lia)) as Hi.
  destruct (keyBindings viewHierarchy (prefixOf i buf)) as [b p]; simpl in Hi.
  subst p. apply IH. intros j Hj. apply H. lia.
Qed.

Lemma scan_decisive (buf : string) (b : Binding) (remaining i m : nat) :
  ambiguousBelow buf i m ->
  keyBindings viewHierarchy (prefixOf m buf) = (b, false) ->
  i <= m < i + remaining ->
  scan keyBindings viewHierarchy buf remaining i = Decisive m b.
Proof.
  revert i. induction remaining as [|k IH]; intros i H Hm Hr; [lia|].
  simpl. destruct (Nat.eq_dec i m) as [->|Hne].
  - now rewrite Hm.
  - pose proof (H i ltac:(lia)) as Hi.
    destruct (keyBindings viewHierarchy (prefixOf i buf)) as [b' p]; simpl in Hi.
    subst p. apply IH; [|assumption|lia].
    intros j Hj. apply H. lia.
Qed.

End Scan.

(** *** One resolution step *)

Lemma Process_unfold (kb : KeyBindings) (fuel : nat) (ib : InputBuffer)
    (vh : ViewHierarchy) :
  Process kb fuel ib vh =
  match buffer ib with
  | EmptyString => Some (mkAction ActionNone, "", ib)
  | String firstChar rest =>
      match scan kb vh (buffer ib) (String.length (buffer ib)) 1 with
      | StillAmbiguous => Some (mkAction ActionNone, "", ib)
      | Decisive i (newKeystringBinding mapped) =>
          match fuel with
          | O => None
          | S fuel' =>
              Process kb fuel' (mkInputBuffer (mapped ++ afterPrefix i (buffer ib))) vh
          end
      | Decisive i (newActionBinding a) =>
          if isActionNone a && Nat.eqb i (String.length (buffer ib)) then
            Some (mkAction ActionNone, String firstChar "", mkInputBuffer rest)
          else
            Some (mkAction a, prefixOf i (buffer ib),
                  mkInputBuffer (afterPrefix i (buffer ib)))
      end
  end.
Proof. destruct fuel; reflexivity. Qed.

(** A buffer all of whose prefixes are ambiguous stays pending. *)
Lemma Process_ambiguous (kb : KeyBindings) (fuel : nat) (vh : ViewHierarchy)
    (buf : string) :
  ambiguousBelow kb vh buf 1 (S (String.length buf)) ->
  Process kb fuel (mkInputBuffer buf) vh
  = Some (mkAction ActionNone, "", mkInputBuffer buf).
Proof.
  intros H. rewrite Process_unfold. simpl buffer.
  destruct buf as [|c rest]; [reflexivity|].
  rewrite scan_still_ambiguous; [reflexivity|].
  intros j Hj. apply H. lia.
Qed.

(** A buffer that is exactly a bound sequence, ambiguous before its last
    key, resolves to the bound action and is consumed whole. *)
Lemma Process_bound_sequence (kb : KeyBindings) (fuel : nat) (vh : ViewHierarchy)
    (buf : string) (a : ActionType) :
  buf <> "" ->
  ambiguousBelow kb vh buf 1 (String.length buf) ->
  kb vh buf = (newActionBinding a, false) ->
  a <> ActionNone ->
  Process kb fuel (mkInputBuffer buf) vh
  = Some (mkAction a, buf, mkInputBuffer "").
Proof.
  intros Hne Hamb Hb Ha. rewrite Process_unfold. simpl buffer.
  destruct buf as [|c rest]; [congruence|].
  rewrite (scan_decisive kb vh _ (newActionBinding a) _ 1 (String.length (String c rest)));
    [|assumption|now rewrite prefixOf_full|simpl; lia].
  replace (isActionNone a) with false by (destruct a; simpl; congruence).
  cbv [andb]. now rewrite prefixOf_full, afterPrefix_full.
Qed.

(** C2: when the scan meets a decisive result without a binding only at the
    full length of the pending buffer, every shorter prefix being ambiguous,
    [Process] returns the no-op action with the first character alone as
    keystring, and the buffer it leaves for the next call is exactly the
    rest of the characters. *)
Theorem Process_dead_end_consumes_first_char (kb : KeyBindings) (fuel : nat)
    (vh : ViewHierarchy) (c : ascii) (rest : string) :
  ambiguousBelow kb vh (String c rest) 1 (String.length (String c rest)) ->
  kb vh (String c rest) = (newActionBinding ActionNone, false) ->
  Process kb fuel (mkInputBuffer (String c rest)) vh
  = Some (mkAction ActionNone, String c "", mkInputBuffer rest).
Proof.
  intros Hamb Hb. rewrite Process_unfold. simpl buffer.
  rewrite (scan_decisive kb vh _ (newActionBinding ActionNone) _ 1
             (String.length (String c rest)));
    [|assumption|now rewrite prefixOf_full|simpl; lia].
  simpl isActionNone. now rewrite Nat.eqb_refl.
Qed.

(** The two consecutive calls of the test: ["ab"] yields the no-op action
    with ["a"], then the no-op action with ["b"]. *)
Lemma Process_dead_end_consumes_first_char_witness :
  Process deadEndBindings 0 (Append NewInputBuffer "ab") testHierarchy
  = Some (mkAction ActionNone, "a", mkInputBuffer "b")
  /\ Process deadEndBindings 0 (mkInputBuffer "b") testHierarchy
     = Some (mkAction ActionNone, "b", mkInputBuffer "").
Proof.
  split.
  - apply (Process_dead_end_consumes_first_char deadEndBindings 0 testHierarchy
             "a"%char "b").
    + intros j Hj. simpl in Hj. assert (j = 1) as -> by lia. reflexivity.
    + reflexivity.
  - apply (Process_dead_end_consumes_first_char deadEndBindings 0 testHierarchy
             "b"%char "").
    + intros j Hj. simpl in Hj. lia.
    + reflexivity.
Defined.

(** *** Keys fed one at a time *)

Lemma feedKeys_from_prefix (kb : KeyBindings) (fuel : nat) (vh : ViewHierarchy)
    (keys : string) (a : ActionType) :
  ambiguousBelow kb vh keys 1 (String.length keys) ->
  kb vh keys = (newActionBinding a, false) ->
  a <> ActionNone ->
  forall pending typed : string,
    typed ++ pending = keys ->
    pending <> "" ->
    feedKeys kb fuel vh (mkInputBuffer typed) pending
    = Some ((repeat (mkAction ActionNone, "") (String.length pending - 1)
               ++ [(mkAction a, keys)])%list,
            mkInputBuffer "").
Proof.
  intros Hamb Hb Ha.
  induction pending as [|c pending IH]; intros typed Hsplit Hne; [congruence|].
  simpl feedKeys. unfold Append. simpl buffer.
  destruct pending as [|c' pending'].
  - rewrite Hsplit.
    rewrite (Process_bound_sequence kb fuel vh keys a); try assumption.
    + reflexivity.
    + intros ->. now destruct typed.
  - assert (Hlen : String.length keys
                   = String.length (typed ++ String c "") + S (String.length pending')).
    { rewrite <- Hsplit, !length_append. simpl. lia. }
    assert (Hkeys : (typed ++ String c "") ++ String c' pending' = keys).
    { now rewrite append_assoc. }
    rewrite Process_ambiguous.
    + rewrite (IH (typed ++ String c "")); [|assumption|congruence].
      simpl String.length. rewrite !Nat.sub_succ, !Nat.sub_0_r. reflexivity.
    + intros j Hj.
      rewrite <- (prefixOf_append j _ (String c' pending')) by lia.
      rewrite Hkeys. apply Hamb. lia.
Qed.

(** C7: keys fed one per [Append], every proper prefix of the accumulated
    sequence being reported as the prefix of a longer binding and the whole
    sequence being bound to an action: every [Process] call but the last
    returns the no-op action with the empty keystring and leaves the buffer
    as it is, and the call after the last key returns the bound action with
    the whole sequence as keystring, consuming it. *)
Theorem feedKeys_multi_key_binding (kb : KeyBindings) (fuel : nat)
    (vh : ViewHierarchy) (keys : string) (a : ActionType) :
  keys <> "" ->
  ambiguousBelow kb vh keys 1 (String.length keys) ->
  kb vh keys = (newActionBinding a, false) ->
  a <> ActionNone ->
  feedKeys kb fuel vh NewInputBuffer keys
  = Some ((repeat (mkAction ActionNone, "") (String.length keys - 1)
             ++ [(mkAction a, keys)])%list,
          mkInputBuffer "").
Proof.
  intros Hne Hamb Hb Ha.
  now apply (feedKeys_from_prefix kb fuel vh keys a Hamb Hb Ha keys "").
Qed.

(** The test's table: ["a"] and ["ab"] ambiguous, ["abc"] bound. *)
Lemma feedKeys_multi_key_binding_witness :
  feedKeys multiKeyBindings 0 testHierarchy NewInputBuffer "abc"
  = Some ([(mkAction ActionNone, ""); (mkAction ActionNone, "");
           (mkAction ActionFirstLine, "abc")],
          mkInputBuffer "").
Proof.
  apply (feedKeys_multi_key_binding multiKeyBindings 0 testHierarchy "abc"
           ActionFirstLine).
  - discriminate.
  - intros j Hj. simpl in Hj.
    assert (j = 1 \/ j = 2) as [-> | ->] by lia; reflexivity.
  - reflexivity.
  - discriminate.
Defined.

(** *** Macro expansion *)

Lemma prefixOf_append_exact (s t : string) :
  prefixOf (String.length s) (s ++ t) = s.
Proof. rewrite prefixOf_append by lia. apply prefixOf_full. Qed.

Lemma afterPrefix_append (s t : string) :
  afterPrefix (String.length s) (s ++ t) = t.
Proof.
  unfold afterPrefix. induction s as [|c s IH]; simpl.
  - rewrite Nat.sub_0_r. apply prefixOf_full.
  - exact IH.
Qed.

(** A decisive keystring binding met at the prefix of length [i] of the
    pending buffer: the call goes on, with one unit of fuel less, from the
    buffer made of the replacement followed by what came after the prefix. *)
Lemma Process_splices_keystring_binding (kb : KeyBindings) (fuel : nat)
    (vh : ViewHierarchy) (buf mapped : string) (i : nat) :
  1 <= i <= String.length buf ->
  ambiguousBelow kb vh buf 1 i ->
  kb vh (prefixOf i buf) = (newKeystringBinding mapped, false) ->
  Process kb (S fuel) (mkInputBuffer buf) vh
  = Process kb fuel (mkInputBuffer (mapped ++ afterPrefix i buf)) vh.
Proof.
  intros Hi Hamb Hmacro. rewrite Process_unfold. simpl buffer.
  destruct buf as [|c rest]; [simpl in Hi; lia|].
  rewrite (scan_decisive kb vh _ (newKeystringBinding mapped) _ 1 i);
    [reflexivity|assumption|assumption|lia].
Qed.

(** C1: a keystring [typed] bound decisively to the replacement keystring
    [mapped] and followed in the pending buffer by [rest], the expanded
    sequence [mapped ++ rest] being bound decisively to an action and
    ambiguous before its end: one [Process] call replaces the matched prefix
    by the replacement in front of the untouched remainder (the new buffer
    is [mapped ++ rest], in this order), scans again, and returns that
    action with the expanded keystring [mapped ++ rest], not the typed one,
    leaving the buffer empty.  With ["a"] for ["bb"], followed by ["b"],
    this is the buffer ["ab"] resolved as ["bbb"]. *)
Theorem Process_expands_keystring_binding (kb : KeyBindings) (fuel : nat)
    (vh : ViewHierarchy) (typed mapped rest : string) (a : ActionType) :
  typed <> "" ->
  ambiguousBelow kb vh (typed ++ rest) 1 (String.length typed) ->
  kb vh typed = (newKeystringBinding mapped, false) ->
  mapped ++ rest <> "" ->
  ambiguousBelow kb vh (mapped ++ rest) 1 (String.length (mapped ++ rest)) ->
  kb vh (mapped ++ rest) = (newActionBinding a, false) ->
  a <> ActionNone ->
  Process kb (S fuel) (Append NewInputBuffer (typed ++ rest)) vh
  = Process kb fuel (mkInputBuffer (mapped ++ rest)) vh
  /\ Process kb (S fuel) (Append NewInputBuffer (typed ++ rest)) vh
     = Some (mkAction a, mapped ++ rest, mkInputBuffer "").
Proof.
  intros Htyped Hamb Hmacro Hne Hamb' Hbound Ha.
  assert (Hstep : Process kb (S fuel) (Append NewInputBuffer (typed ++ rest)) vh
                  = Process kb fuel (mkInputBuffer (mapped ++ rest)) vh).
  { change (Append NewInputBuffer (typed ++ rest))
      with (mkInputBuffer (typed ++ rest)).
    rewrite (Process_splices_keystring_binding kb fuel vh (typed ++ rest) mapped
               (String.length typed)).
    - now rewrite afterPrefix_append.
    - rewrite length_append. destruct typed; [congruence|simpl; lia].
    - exact Hamb.
    - now rewrite prefixOf_append_exact. }
  split; [exact Hstep|].
  rewrite Hstep. now apply Process_bound_sequence.
Qed.

(** The test's table, ["ab"] resolved as ["bbb"]; and a table whose
    replacement ["xy"] and remainder ["z"] differ, ["qz"] resolved as
    ["xyz"]. *)
Lemma Process_expands_keystring_binding_witness :
  Process macroBindings 1 (Append NewInputBuffer "ab") testHierarchy
  = Some (mkAction ActionFirstLine, "bbb", mkInputBuffer "")
  /\ Process spliceBindings 1 (Append NewInputBuffer "qz") testHierarchy
     = Some (mkAction ActionFirstLine, "xyz", mkInputBuffer "").
Proof.
  split.
  - apply (Process_expands_keystring_binding macroBindings 0 testHierarchy
             "a" "bb" "b" ActionFirstLine).
    + discriminate.
    + intros j Hj. simpl in Hj. lia.
    + reflexivity.
    + discriminate.
    + intros j Hj. simpl in Hj.
      assert (j = 1 \/ j = 2) as [-> | ->] by lia; reflexivity.
    + reflexivity.
    + discriminate.
  - apply (Process_expands_keystring_binding spliceBindings 0 testHierarchy
             "q" "xy" "z" ActionFirstLine).
    + discriminate.
    + intros j Hj. simpl in Hj. lia.
    + reflexivity.
    + discriminate.
    + intros j Hj. simpl in Hj.
      assert (j = 1 \/ j = 2) as [-> | ->] by lia; reflexivity.
    + reflexivity.
    + discriminate.
Defined.

End InputBufferProps.

(* ===================================================================== *)
(** ** Properties of the rendering engine *)
(* ===================================================================== *)

Module WindowProps.

Import Window.
Local Open Scope N_scope.

(** *** Unsigned arithmetic *)

Ltac uint_lia :=
  unfold uadd, usub, uintOfLen, uintOfInt in *;
  change uintModulus with 18446744073709551616 in *;
  zify; Z.to_euclidean_division_equations; lia.

Lemma uintOfLen_le (n : nat) : uintOfLen n <= N.of_nat n.
Proof. uint_lia. Qed.

Lemma uintOfLen_small (n : nat) : N.of_nat n < uintModulus -> uintOfLen n = N.of_nat n.
Proof. uint_lia. Qed.

Lemma uadd_small (a b : N) : a + b < uintModulus -> uadd a b = a + b.
Proof. uint_lia. Qed.

Lemma usub_small (a b : N) : b <= a -> a < uintModulus -> usub a b = a - b.
Proof. uint_lia. Qed.

Lemma usub_wraps (a b : N) :
  a < b -> b < uintModulus -> usub a b = a + uintModulus - b.
Proof. uint_lia. Qed.

(** *** Checked accesses *)

Lemma cellAt_in_range (l : Line) (i : N) :
  (N.to_nat i < length (cells l))%nat ->
  exists c, cells l !! N.to_nat i = Some c /\ cellAt l i = Ok c.
Proof.
  intros H. destruct (lookup_lt_is_Some_2 (cells l) (N.to_nat i) H) as [c Hc].
  exists c. unfold cellAt. now rewrite Hc.
Qed.

Lemma cellAt_out_of_range (l : Line) (i : N) :
  (length (cells l) <= N.to_nat i)%nat -> cellAt l i = Panic IndexOutOfRange.
Proof.
  intros H. unfold cellAt. now rewrite (lookup_ge_None_2 (cells l) _ H).
Qed.

Lemma updateCell_in_range (l : Line) (i : N) (f : Cell -> Cell) :
  (N.to_nat i < length (cells l))%nat ->
  exists c, cells l !! N.to_nat i = Some c
            /\ updateCell l i f = Ok (mkLine (<[N.to_nat i := f c]> (cells l))).
Proof.
  intros H. destruct (cellAt_in_range l i H) as (c & Hc & Hat).
  exists c. split; [exact Hc|]. unfold updateCell. now rewrite Hat.
Qed.

Lemma lenCells_le (lb : LineBuilder) :
  lenCells lb <= N.of_nat (length (cells (line lb))).
Proof. apply uintOfLen_le. Qed.

Lemma lenCells_lt (lb : LineBuilder) : lenCells lb < uintModulus.
Proof. unfold lenCells. uint_lia. Qed.

(** *** The line writer never leaves the line *)

Lemma setCellAndAdvanceIndex_total (lb : LineBuilder) (r : rune) (w : N)
    (cmp : ThemeComponentId) :
  exists lb', setCellAndAdvanceIndex lb r w cmp = Ok lb' /\ config lb' = config lb.
Proof.
  unfold setCellAndAdvanceIndex.
  destruct (cellIndex lb <? lenCells lb) eqn:Hin; [|now exists lb].
  apply N.ltb_lt in Hin. pose proof (lenCells_le lb) as Hle.
  destruct (startColumn lb <=? column lb); [|simpl; eauto].
  destruct (updateCell_in_range (line lb) (cellIndex lb) (setCell r cmp))
    as (c & _ & ->); [lia|].
  simpl. eauto.
Qed.

Lemma clearLoop_total (count : nat) (lb : LineBuilder) :
  exists lb', clearLoop count lb = Ok lb' /\ config lb' = config lb.
Proof.
  revert lb. induction count as [|count IH]; intros lb; simpl; [eauto|].
  destruct (cellIndex lb <? lenCells lb) eqn:Hin; [|eauto].
  apply N.ltb_lt in Hin. pose proof (lenCells_le lb) as Hle.
  destruct (updateCell_in_range (line lb) (cellIndex lb) resetCodePoints)
    as (c & _ & ->); [lia|].
  simpl. destruct (IH (withCellIndex
                         (withLine lb (mkLine (<[N.to_nat (cellIndex lb) := resetCodePoints c]>
                                                 (cells (line lb)))))
                         (uadd (cellIndex lb) 1))) as (lb' & Hrun & Hcfg).
  exists lb'. split; [exact Hrun|exact Hcfg].
Qed.

Lemma Clear_total (lb : LineBuilder) (cellNum : N) :
  exists lb', Clear lb cellNum = Ok lb' /\ config lb' = config lb.
Proof. apply clearLoop_total. Qed.

Lemma appendToPreviousCell_total (lb : LineBuilder) (r : rune) :
  cellIndex lb <= lenCells lb ->
  exists lb', appendToPreviousCell lb r = Ok lb' /\ config lb' = config lb.
Proof.
  intros Hle. unfold appendToPreviousCell.
  destruct (0 <? cellIndex lb) eqn:Hpos; [|eauto].
  apply N.ltb_lt in Hpos.
  pose proof (lenCells_le lb) as Hlen. pose proof (lenCells_lt lb) as Hlt.
  rewrite usub_small by lia.
  destruct (updateCell_in_range (line lb) (cellIndex lb - 1) (writeRune r))
    as (c & _ & ->); [lia|].
  simpl. eauto.
Qed.

Lemma appendRendered_total (cmp : ThemeComponentId) (rs : list RenderedCodePoint)
    (lb : LineBuilder) :
  exists lb', appendRendered lb cmp rs = Ok lb' /\ config lb' = config lb.
Proof.
  revert lb. induction rs as [|r rs IH]; intros lb; simpl; [eauto|].
  destruct (lenCells lb <? cellIndex lb) eqn:Hbreak; [eauto|].
  apply N.ltb_ge in Hbreak.
  assert (Hstep : exists lb1,
             (if 1 <? width r
              then do lb1 <- setCellAndAdvanceIndex lb (codePoint r) (width r) cmp;
                   Clear lb1 (usub (width r) 1)
              else if 0 <? width r
                   then setCellAndAdvanceIndex lb (codePoint r) (width r) cmp
                   else appendToPreviousCell lb (codePoint r)) = Ok lb1
             /\ config lb1 = config lb).
  { destruct (1 <? width r).
    - destruct (setCellAndAdvanceIndex_total lb (codePoint r) (width r) cmp)
        as (lb1 & -> & Hc1).
      simpl. destruct (Clear_total lb1 (usub (width r) 1)) as (lb2 & -> & Hc2).
      exists lb2. split; [reflexivity|congruence].
    - destruct (0 <? width r).
      + apply setCellAndAdvanceIndex_total.
      + now apply appendToPreviousCell_total. }
  destruct Hstep as (lb1 & -> & Hc1). simpl.
  destruct (IH lb1) as (lb2 & -> & Hc2).
  exists lb2. split; [reflexivity|congruence].
Qed.

Section LineWriterTotal.

Variable IsPrint : rune -> bool.
Variable RuneWidth : rune -> Z.
Variable nonPrintableCharString : rune -> list rune.

Local Abbreviation Determine :=
  (DetermineRenderedCodePoint IsPrint RuneWidth nonPrintableCharString).
Local Abbreviation AppendStyled :=
  (AppendWithStyle IsPrint RuneWidth nonPrintableCharString).

(** Classification fails only by dividing by a zero tab width. *)
Lemma DetermineRenderedCodePoint_cases (r : rune) (column : N) (cfg : Config) :
  (exists rs, Determine r column cfg = Ok rs)
  \/ (Determine r column cfg = Panic DivideByZero
      /\ uintOfInt (GetInt_CV_TAB_WIDTH cfg) = 0).
Proof.
  unfold DetermineRenderedCodePoint.
  destruct (negb (IsPrint r)); [|eauto].
  destruct (r =? 9)%Z.
  - destruct (uintOfInt (GetInt_CV_TAB_WIDTH cfg) =? 0) eqn:Htab; [|eauto].
    apply N.eqb_eq in Htab. now right.
  - destruct (negb (r =? 10)%Z && ((r <? 32)%Z || (r =? 127)%Z)); eauto.
Qed.

Lemma AppendWithStyle_cases (cmp : ThemeComponentId) (str : list rune)
    (lb : LineBuilder) :
  (exists lb', AppendStyled lb cmp str = Ok lb' /\ config lb' = config lb)
  \/ (AppendStyled lb cmp str = Panic DivideByZero
      /\ uintOfInt (GetInt_CV_TAB_WIDTH (config lb)) = 0).
Proof.
  revert lb. induction str as [|r str IH]; intros lb; simpl; [eauto|].
  destruct (DetermineRenderedCodePoint_cases r (column lb) (config lb))
    as [(rs & ->) | (-> & Hzero)]; [|now right].
  simpl. destruct (appendRendered_total cmp rs lb) as (lb1 & -> & Hc1).
  simpl. destruct (IH lb1) as [(lb2 & -> & Hc2) | (-> & Hzero)].
  - left. exists lb2. split; [reflexivity|congruence].
  - right. split; [reflexivity|congruence].
Qed.

Lemma AppendWithStyle_total (cmp : ThemeComponentId) (str : list rune)
    (lb : LineBuilder) :
  uintOfInt (GetInt_CV_TAB_WIDTH (config lb)) <> 0 ->
  exists lb', AppendStyled lb cmp str = Ok lb' /\ config lb' = config lb.
Proof.
  intros Htab.
  destruct (AppendWithStyle_cases cmp str lb) as [H | (_ & Hzero)];
    [exact H|contradiction].
Qed.





End LineWriterTotal.



(** *** Windows too small for a frame *)

Section SmallWindows.

Variable IsPrint : rune -> bool.
Variable RuneWidth : rune -> Z.
Variable nonPrintableCharString : rune -> list rune.
Variables ACS_ULCORNER ACS_URCORNER ACS_LLCORNER ACS_LRCORNER : Char.
Variables ACS_HLINE ACS_VLINE : Char.

(** C9: on a window with fewer than three rows or fewer than three
    columns, [SetTitle] and [SetFooter] return no error and [DrawBorder]
    returns, each leaving the window, and so every cell, as it was. *)
Theorem small_window_frame_is_noop (win : Window) (cmp : ThemeComponentId)
    (text : list rune) :
  rows win < 3 \/ cols win < 3 ->
  SetTitle IsPrint RuneWidth nonPrintableCharString win cmp text = Ok (win, None)
  /\ SetFooter IsPrint RuneWidth nonPrintableCharString win cmp text = Ok (win, None)
  /\ DrawBorder ACS_ULCORNER ACS_URCORNER ACS_LLCORNER ACS_LRCORNER
       ACS_HLINE ACS_VLINE win = Ok win.
Proof.
  intros Hsmall.
  assert (Hguard : (rows win <? 3) || (cols win <? 3) = true).
  { apply orb_true_iff. destruct Hsmall; [left|right]; now apply N.ltb_lt. }
  unfold SetTitle, SetFooter, DrawBorder, setHeader. rewrite Hguard.
  repeat split. now destruct (rows win <? 1).
Qed.

End SmallWindows.

(** A window of one row and two columns. *)
Lemma small_window_frame_is_noop_witness :
  SetTitle sampleIsPrint sampleRuneWidth sampleNonPrintable smallWindow 0%Z [116%Z]
  = Ok (smallWindow, None)
  /\ SetFooter sampleIsPrint sampleRuneWidth sampleNonPrintable smallWindow 0%Z [116%Z]
     = Ok (smallWindow, None)
  /\ DrawBorder 1 2 3 4 5 6 smallWindow = Ok smallWindow.
Proof.
  apply (small_window_frame_is_noop sampleIsPrint sampleRuneWidth
           sampleNonPrintable 1 2 3 4 5 6 smallWindow).
  left. reflexivity.
Defined.

(** On the window of three rows and five columns the frame is drawn: the
    top row holds the two upper corners around three horizontal bars. *)
Example DrawBorder_sample_top_row :
  exists win',
    DrawBorder 1 2 3 4 5 6 sampleWindow = Ok win'
    /\ (map (fun c => acs_char (style c)) ∘ cells) <$> lines win' !! 0%nat
       = Some [1; 5; 5; 5; 2].
Proof. eexists. split; vm_compute; reflexivity. Qed.

(** *** Resizing *)

(** C4, as the code has it: [Resize] to the dimensions the window already
    has returns the window unchanged; [Resize] to other dimensions records
    them and allocates that many lines of that many cells, every cell
    having no code point at all, the zero style and no glyph override; the
    cursor, the origin offset, the identifier and the configuration are
    kept. *)
Theorem Resize_reallocates_empty_cells (win : Window) (vd : ViewDimension) :
  (rows win = vdRows vd /\ cols win = vdCols vd -> Resize win vd = win)
  /\ (~ (rows win = vdRows vd /\ cols win = vdCols vd) ->
      rows (Resize win vd) = vdRows vd
      /\ cols (Resize win vd) = vdCols vd
      /\ length (lines (Resize win vd)) = N.to_nat (vdRows vd)
      /\ (forall l, l ∈ lines (Resize win vd) ->
            length (cells l) = N.to_nat (vdCols vd)
            /\ forall c, c ∈ cells l ->
                  codePoints c = [] /\ style c = mkCellStyle 0%Z 0 0)
      /\ cursor (Resize win vd) = cursor win
      /\ startRow (Resize win vd) = startRow win
      /\ startCol (Resize win vd) = startCol win
      /\ id (Resize win vd) = id win
      /\ winConfig (Resize win vd) = winConfig win).
Proof.
  unfold Resize. split.
  - intros [Hr Hc]. rewrite Hr, Hc, !N.eqb_refl. reflexivity.
  - intros Hdiff.
    destruct ((rows win =? vdRows vd) && (cols win =? vdCols vd)) eqn:Hsame.
    + apply andb_true_iff in Hsame as [Hr Hc].
      apply N.eqb_eq in Hr, Hc. tauto.
    + simpl. split_and!; try reflexivity.
      * apply repeat_length.
      * intros l Hl. apply list_elem_of_In, repeat_spec in Hl. subst l.
        split; [apply repeat_length|].
        intros c Hc. apply list_elem_of_In, repeat_spec in Hc. now subst c.
Qed.

Lemma Resize_reallocates_empty_cells_witness :
  Resize sampleWindow (mkViewDimension 3 5) = sampleWindow
  /\ length (lines (Resize sampleWindow (mkViewDimension 1 1))) = 1%nat.
Proof.
  split.
  - apply (Resize_reallocates_empty_cells sampleWindow (mkViewDimension 3 5)).
    split; reflexivity.
  - apply (Resize_reallocates_empty_cells sampleWindow (mkViewDimension 1 1)).
    intros [H _]. discriminate H.
Defined.

(** C4 as stated fails: the one cell of a window resized from nothing to
    one row and one column holds no code point, not a space. *)
Lemma Resize_cells_hold_no_space :
  let win := NewWindow "w" sampleConfig in
  let win' := Resize win (mkViewDimension 1 1) in
  rows win <> rows win'
  /\ lines win' = [mkLine [mkCell [] (mkCellStyle 0%Z 0 0)]]
  /\ ~ (forall l c, l ∈ lines win' -> c ∈ cells l -> codePoints c = [32%Z]).
Proof.
  split; [discriminate|]. split; [reflexivity|].
  intros H.
  specialize (H (mkLine [zeroCell]) zeroCell).
  discriminate H; simpl; apply list_elem_of_here.
Qed.

(** Well-formedness is established by [NewWindow] and kept by [Resize]. *)
Lemma NewWindow_wf (name : string) (cfg : Config) : wfWindow (NewWindow name cfg).
Proof. repeat split. constructor. Qed.

Lemma Resize_wf (win : Window) (vd : ViewDimension) :
  wfWindow win -> vdRows vd < 2 ^ 63 -> vdCols vd < 2 ^ 63 ->
  wfWindow (Resize win vd).
Proof.
  intros Hwf Hr Hc. unfold Resize.
  destruct ((rows win =? vdRows vd) && (cols win =? vdCols vd)); [exact Hwf|].
  split_and!; simpl; try assumption.
  - apply repeat_length.
  - apply Forall_forall. intros l Hl.
    apply list_elem_of_In, repeat_spec in Hl. subst l. apply repeat_length.
Qed.

(** *** Out-of-range indices *)

Lemma lineAt_in_range (win : Window) (rowIndex : N) :
  wfWindow win -> rowIndex < rows win ->
  exists l, lines win !! N.to_nat rowIndex = Some l
            /\ lineAt (lines win) rowIndex = Ok l
            /\ length (cells l) = N.to_nat (cols win).
Proof.
  intros (Hlen & Hcells & _) Hrow.
  destruct (lookup_lt_is_Some_2 (lines win) (N.to_nat rowIndex)) as [l Hl]; [lia|].
  exists l. unfold lineAt. rewrite Hl. repeat split.
  rewrite Forall_forall in Hcells. apply Hcells.
  eapply list_elem_of_lookup_2. exact Hl.
Qed.

Section OutOfRange.

Variable IsPrint : rune -> bool.
Variable RuneWidth : rune -> Z.
Variable nonPrintableCharString : rune -> list rune.
Variables CMP_NONE : ThemeComponentId.
Variables A_REVERSE A_DIM : Char.

Local Abbreviation SetRow' := (SetRow IsPrint RuneWidth nonPrintableCharString).
Local Abbreviation SetSelectedRow' := (SetSelectedRow CMP_NONE A_REVERSE A_DIM).

(** C3, as the code has it: [SetCursor] fails exactly when the row index is
    at or beyond the row count or the column index is at or beyond the
    column count; [SetSelectedRow] fails exactly when the row index is at or
    beyond the row count; [SetRow] fails exactly when the row index is at or
    beyond the row count or the start column is zero, and a start column at
    or beyond the column count is accepted like any other positive one. *)
Theorem out_of_range_indices_fail (win : Window) (rowIndex colIndex startColumn : N)
    (active : bool) (cmp : ThemeComponentId) (str : list rune) :
  wfWindow win ->
  uintOfInt (GetInt_CV_TAB_WIDTH (winConfig win)) <> 0 ->
  (rows win <= rowIndex ->
     SetCursor win rowIndex colIndex
     = (win, Some (InvalidRowIndex rowIndex (rows win))))
  /\ (rowIndex < rows win -> cols win <= colIndex ->
       SetCursor win rowIndex colIndex
       = (win, Some (InvalidColIndex colIndex (cols win))))
  /\ (rowIndex < rows win -> colIndex < cols win ->
       SetCursor win rowIndex colIndex
       = (withCursor win (Some (mkCursor rowIndex colIndex)), None))
  /\ (rows win <= rowIndex ->
       SetSelectedRow' win rowIndex active
       = Ok (win, Some (InvalidRowIndex rowIndex (rows win))))
  /\ (rowIndex < rows win ->
       exists win', SetSelectedRow' win rowIndex active = Ok (win', None))
  /\ (rows win <= rowIndex ->
       SetRow' win rowIndex startColumn cmp str
       = Ok (win, Some (InvalidRowIndex rowIndex (rows win))))
  /\ (rowIndex < rows win -> startColumn = 0 ->
       SetRow' win rowIndex startColumn cmp str
       = Ok (win, Some ColumnMustBePositive))
  /\ (rowIndex < rows win -> startColumn <> 0 ->
       exists win', SetRow' win rowIndex startColumn cmp str = Ok (win', None)).
Proof.
  intros Hwf Htab.
  unfold SetCursor, SetSelectedRow, SetRow, Window_LineBuilder.
  repeat split.
  - intros Hrow. apply N.leb_le in Hrow. now rewrite Hrow.
  - intros Hrow Hcol. apply N.leb_gt in Hrow. apply N.leb_le in Hcol.
    now rewrite Hrow, Hcol.
  - intros Hrow Hcol. apply N.leb_gt in Hrow, Hcol. now rewrite Hrow, Hcol.
  - intros Hrow. apply N.leb_le in Hrow. now rewrite Hrow.
  - intros Hrow. destruct (lineAt_in_range win rowIndex Hwf Hrow) as (l & _ & -> & _).
    apply N.leb_gt in Hrow. rewrite Hrow. simpl. eauto.
  - intros Hrow. apply N.leb_le in Hrow. now rewrite Hrow.
  - intros Hrow ->. apply N.leb_gt in Hrow. now rewrite Hrow.
  - intros Hrow Hstart.
    destruct (lineAt_in_range win rowIndex Hwf Hrow) as (l & _ & -> & _).
    apply N.leb_gt in Hrow. apply N.eqb_neq in Hstart. rewrite Hrow, Hstart.
    simpl.
    destruct (AppendWithStyle_total IsPrint RuneWidth nonPrintableCharString
                cmp str (NewLineBuilder l (winConfig win) startColumn) Htab)
      as (lb' & -> & _).
    simpl. eauto.
Qed.

End OutOfRange.

Lemma sampleWindow_wf : wfWindow sampleWindow.
Proof.
  repeat split; try reflexivity.
  repeat constructor.
Qed.

Lemma out_of_range_indices_fail_witness :
  SetCursor sampleWindow 3 0 = (sampleWindow, Some (InvalidRowIndex 3 3))
  /\ SetCursor sampleWindow 0 5 = (sampleWindow, Some (InvalidColIndex 5 5))
  /\ SetSelectedRow 0%Z 1 2 sampleWindow 3 true
     = Ok (sampleWindow, Some (InvalidRowIndex 3 3))
  /\ SetRow sampleIsPrint sampleRuneWidth sampleNonPrintable sampleWindow 0 0 0%Z [97%Z]
     = Ok (sampleWindow, Some ColumnMustBePositive)
  /\ exists win',
       SetRow sampleIsPrint sampleRuneWidth sampleNonPrintable sampleWindow 0 7 0%Z [97%Z]
       = Ok (win', None).
Proof.
  assert (Htab : uintOfInt (GetInt_CV_TAB_WIDTH (winConfig sampleWindow)) <> 0)
    by (vm_compute; discriminate).
  split; [|split; [|split; [|split]]].
  - apply (out_of_range_indices_fail sampleIsPrint sampleRuneWidth sampleNonPrintable
             0%Z 1 2 sampleWindow 3 0 1 true 0%Z [97%Z] sampleWindow_wf Htab).
    vm_compute. discriminate.
  - apply (out_of_range_indices_fail sampleIsPrint sampleRuneWidth sampleNonPrintable
             0%Z 1 2 sampleWindow 0 5 1 true 0%Z [97%Z] sampleWindow_wf Htab).
    + reflexivity.
    + vm_compute. discriminate.
  - apply (out_of_range_indices_fail sampleIsPrint sampleRuneWidth sampleNonPrintable
             0%Z 1 2 sampleWindow 3 0 1 true 0%Z [97%Z] sampleWindow_wf Htab).
    vm_compute. discriminate.
  - apply (out_of_range_indices_fail sampleIsPrint sampleRuneWidth sampleNonPrintable
             0%Z 1 2 sampleWindow 0 0 0 true 0%Z [97%Z] sampleWindow_wf Htab);
      reflexivity.
  - apply (out_of_range_indices_fail sampleIsPrint sampleRuneWidth sampleNonPrintable
             0%Z 1 2 sampleWindow 0 0 7 true 0%Z [97%Z] sampleWindow_wf Htab).
    + reflexivity.
    + discriminate.
Defined.

(** C3 as stated fails: on the window of three rows and five columns
    [SetRow] with start column five, which is the column count, returns no
    error; it writes the fifth character of the text to the first cell. *)
Lemma SetRow_accepts_start_column_at_column_count :
  cols sampleWindow <= 5
  /\ SetRow sampleIsPrint sampleRuneWidth sampleNonPrintable sampleWindow 0 5 7%Z
       [97%Z; 98%Z; 99%Z; 100%Z; 101%Z]
     = Ok (storeLine sampleWindow 0
             (mkLine (mkCell [101%Z] (mkCellStyle 7%Z 0 0) :: repeat zeroCell 4)),
           None).
Proof. split; [vm_compute; discriminate|reflexivity]. Qed.

(** *** Single steps of the line writer *)

Lemma setCellAndAdvanceIndex_writes (lb : LineBuilder) (r : rune) (w : N)
    (cmp : ThemeComponentId) (c : Cell) :
  cellIndex lb < lenCells lb ->
  startColumn lb <= column lb ->
  cells (line lb) !! N.to_nat (cellIndex lb) = Some c ->
  setCellAndAdvanceIndex lb r w cmp
  = Ok (mkLineBuilder
          (mkLine (<[N.to_nat (cellIndex lb) := setCell r cmp c]> (cells (line lb))))
          (uadd (cellIndex lb) 1) (uadd (column lb) w) (startColumn lb) (config lb)).
Proof.
  intros Hin Hcol Hc. unfold setCellAndAdvanceIndex, updateCell, cellAt.
  apply N.ltb_lt in Hin. apply N.leb_le in Hcol.
  now rewrite Hin, Hcol, Hc.
Qed.

Lemma setCellAndAdvanceIndex_skips (lb : LineBuilder) (r : rune) (w : N)
    (cmp : ThemeComponentId) :
  cellIndex lb < lenCells lb ->
  column lb < startColumn lb ->
  setCellAndAdvanceIndex lb r w cmp = Ok (withColumn lb (uadd (column lb) w)).
Proof.
  intros Hin Hcol. unfold setCellAndAdvanceIndex.
  apply N.ltb_lt in Hin. apply N.leb_gt in Hcol.
  now rewrite Hin, Hcol.
Qed.

Lemma Clear_one_within (lb : LineBuilder) (c : Cell) :
  cellIndex lb < lenCells lb ->
  cells (line lb) !! N.to_nat (cellIndex lb) = Some c ->
  Clear lb 1
  = Ok (mkLineBuilder
          (mkLine (<[N.to_nat (cellIndex lb) := resetCodePoints c]> (cells (line lb))))
          (uadd (cellIndex lb) 1) (column lb) (startColumn lb) (config lb)).
Proof.
  intros Hin Hc. unfold Clear. simpl. unfold updateCell, cellAt.
  apply N.ltb_lt in Hin. now rewrite Hin, Hc.
Qed.

Lemma Clear_one_at_end (lb : LineBuilder) :
  lenCells lb <= cellIndex lb -> Clear lb 1 = Ok lb.
Proof.
  intros Hout. unfold Clear. simpl. apply N.ltb_ge in Hout. now rewrite Hout.
Qed.

Section WideCodePoints.

Variable IsPrint : rune -> bool.
Variable RuneWidth : rune -> Z.
Variable nonPrintableCharString : rune -> list rune.

Local Abbreviation AppendStyled :=
  (AppendWithStyle IsPrint RuneWidth nonPrintableCharString).

Lemma DetermineRenderedCodePoint_printable (r : rune) (column : N) (cfg : Config) :
  IsPrint r = true ->
  DetermineRenderedCodePoint IsPrint RuneWidth nonPrintableCharString r column cfg
  = Ok [mkRenderedCodePoint (uintOfInt (RuneWidth r)) r].
Proof. intros H. unfold DetermineRenderedCodePoint. now rewrite H. Qed.

(** One printable code point of width two, the builder not being past the
    end of the line: a write attempt followed by the blanking of one cell. *)
Lemma AppendWithStyle_one_wide (lb : LineBuilder) (cmp : ThemeComponentId) (r : rune) :
  IsPrint r = true ->
  uintOfInt (RuneWidth r) = 2 ->
  cellIndex lb <= lenCells lb ->
  AppendStyled lb cmp [r]
  = do lb1 <- setCellAndAdvanceIndex lb r 2 cmp; Clear lb1 1.
Proof.
  intros Hprint Hwide Hin. simpl.
  rewrite DetermineRenderedCodePoint_printable, Hwide by assumption.
  simpl. apply N.ltb_ge in Hin. rewrite Hin.
  change (usub 2 1) with 1.
  destruct (setCellAndAdvanceIndex lb r 2 cmp) as [lb1|p]; simpl; [|reflexivity].
  now destruct (Clear lb1 1).
Qed.

(** C8, what the code does: a printable code point of width two met at or
    after the start column, with the cell index inside the line, is written
    to the cell at the cell index and to no other; the column counter
    advances by two; the cell that follows, when the line has one, loses its
    code points and the cell index moves past it, but that cell keeps its
    style, glyph override included: a line-drawing glyph held there still
    takes precedence over the emptied content.  Every other cell is
    unchanged. *)
Theorem AppendWithStyle_wide_code_point (lb : LineBuilder) (cmp : ThemeComponentId)
    (r : rune) (c : Cell) :
  IsPrint r = true ->
  uintOfInt (RuneWidth r) = 2 ->
  N.of_nat (length (cells (line lb))) < uintModulus ->
  startColumn lb <= column lb ->
  cells (line lb) !! N.to_nat (cellIndex lb) = Some c ->
  exists lb',
    AppendStyled lb cmp [r] = Ok lb'
    /\ cells (line lb') !! N.to_nat (cellIndex lb)
       = Some (mkCell [r] (mkCellStyle cmp (attr (style c)) 0))
    /\ (forall c1, cells (line lb) !! S (N.to_nat (cellIndex lb)) = Some c1 ->
          cells (line lb') !! S (N.to_nat (cellIndex lb)) = Some (mkCell [] (style c1))
          /\ cellIndex lb' = cellIndex lb + 2)
    /\ (cells (line lb) !! S (N.to_nat (cellIndex lb)) = None ->
        cellIndex lb' = cellIndex lb + 1)
    /\ (forall j, j <> N.to_nat (cellIndex lb) -> j <> S (N.to_nat (cellIndex lb)) ->
          cells (line lb') !! j = cells (line lb) !! j)
    /\ length (cells (line lb')) = length (cells (line lb))
    /\ column lb' = uadd (column lb) 2
    /\ startColumn lb' = startColumn lb.
Proof.
  intros Hprint Hwide Hlen Hcol Hc.
  pose proof (lookup_lt_Some _ _ _ Hc) as Hi.
  assert (Hlc : lenCells lb = N.of_nat (length (cells (line lb))))
    by (apply uintOfLen_small; exact Hlen).
  assert (Hin : cellIndex lb < lenCells lb) by lia.
  rewrite AppendWithStyle_one_wide by (assumption || lia).
  rewrite (setCellAndAdvanceIndex_writes lb r 2 cmp c Hin Hcol Hc). simpl.
  set (cs1 := <[N.to_nat (cellIndex lb) := setCell r cmp c]> (cells (line lb))).
  set (lb1 := mkLineBuilder (mkLine cs1) (uadd (cellIndex lb) 1)
                (uadd (column lb) 2) (startColumn lb) (config lb)).
  assert (Hci1 : uadd (cellIndex lb) 1 = cellIndex lb + 1)
    by (apply uadd_small; lia).
  assert (Hlen1 : length cs1 = length (cells (line lb)))
    by apply length_insert.
  assert (Hlc1 : lenCells lb1 = lenCells lb)
    by (unfold lenCells; simpl; now rewrite Hlen1).
  assert (Hnat : N.to_nat (cellIndex lb + 1) = S (N.to_nat (cellIndex lb))) by lia.
  destruct (cells (line lb) !! S (N.to_nat (cellIndex lb))) as [c1|] eqn:Hnext.
  - pose proof (lookup_lt_Some _ _ _ Hnext) as Hi1.
    assert (Hc1 : cells (line lb1) !! N.to_nat (cellIndex lb1) = Some c1).
    { simpl. rewrite Hci1, Hnat. unfold cs1.
      rewrite list_lookup_insert_ne by lia. exact Hnext. }
    rewrite (Clear_one_within lb1 c1); [|rewrite Hlc1; simpl; lia|exact Hc1].
    eexists. split; [reflexivity|]. simpl. rewrite Hci1, Hnat.
    split_and!.
    + rewrite list_lookup_insert_ne by lia. unfold cs1.
      now apply list_lookup_insert_eq.
    + intros c1' [= <-]. split.
      * apply list_lookup_insert_eq. unfold cs1. rewrite length_insert. lia.
      * rewrite uadd_small; lia.
    + discriminate.
    + intros j Hj Hj1. unfold cs1. now rewrite !list_lookup_insert_ne by lia.
    + now rewrite length_insert.
    + reflexivity.
    + reflexivity.
  - apply lookup_ge_None_1 in Hnext.
    rewrite (Clear_one_at_end lb1); [|rewrite Hlc1; simpl; lia].
    eexists. split; [reflexivity|]. simpl.
    split_and!.
    + unfold cs1. now apply list_lookup_insert_eq.
    + discriminate.
    + intros _. exact Hci1.
    + intros j Hj Hj1. unfold cs1. now rewrite list_lookup_insert_ne by lia.
    + exact Hlen1.
    + reflexivity.
    + reflexivity.
Qed.

(** C5, what the code does: a printable code point of width two met while
    the column counter is still below the start column is not written, and
    the column counter advances by two, but the blanking that follows the
    write attempt is not held back: the cell at the cell index loses its
    code points and the cell index advances by one. *)
Theorem AppendWithStyle_wide_left_of_start_blanks_cell (lb : LineBuilder)
    (cmp : ThemeComponentId) (r : rune) (c : Cell) :
  IsPrint r = true ->
  uintOfInt (RuneWidth r) = 2 ->
  N.of_nat (length (cells (line lb))) < uintModulus ->
  column lb < startColumn lb ->
  cells (line lb) !! N.to_nat (cellIndex lb) = Some c ->
  AppendStyled lb cmp [r]
  = Ok (mkLineBuilder
          (mkLine (<[N.to_nat (cellIndex lb) := mkCell [] (style c)]> (cells (line lb))))
          (cellIndex lb + 1) (uadd (column lb) 2) (startColumn lb) (config lb)).
Proof.
  intros Hprint Hwide Hlen Hcol Hc.
  pose proof (lookup_lt_Some _ _ _ Hc) as Hi.
  assert (Hlc : lenCells lb = N.of_nat (length (cells (line lb))))
    by (apply uintOfLen_small; exact Hlen).
  assert (Hin : cellIndex lb < lenCells lb) by lia.
  rewrite AppendWithStyle_one_wide by (assumption || lia).
  rewrite (setCellAndAdvanceIndex_skips lb r 2 cmp Hin Hcol). simpl.
  rewrite (Clear_one_within (withColumn lb (uadd (column lb) 2)) c);
    [|exact Hin|exact Hc].
  simpl. now rewrite uadd_small by lia.
Qed.

End WideCodePoints.

(** The line holds [x] and [y] and is scrolled to start at column three;
    the ideograph U+4E16 occupies columns one and two, wholly left of the
    start column, yet the first cell loses its [x] and the next write will
    go to the second cell. *)
Lemma AppendWithStyle_wide_left_of_start_blanks_cell_witness :
  let lb := NewLineBuilder sampleLine sampleConfig 3 in
  column lb < startColumn lb
  /\ AppendWithStyle sampleIsPrint sampleRuneWidth sampleNonPrintable lb 7%Z [0x4E16%Z]
     = Ok (mkLineBuilder
             (mkLine [mkCell [] (mkCellStyle 0%Z 0 0);
                      mkCell [121%Z] (mkCellStyle 0%Z 0 0)])
             1 3 3 sampleConfig)
  /\ cells sampleLine !! 0%nat = Some (mkCell [120%Z] (mkCellStyle 0%Z 0 0)).
Proof.
  intros lb.
  assert (Hcol : column lb < startColumn lb) by reflexivity.
  split; [exact Hcol|]. split; [|reflexivity].
  exact (AppendWithStyle_wide_left_of_start_blanks_cell sampleIsPrint
           sampleRuneWidth sampleNonPrintable lb 7%Z 0x4E16%Z
           (mkCell [120%Z] (mkCellStyle 0%Z 0 0))
           eq_refl eq_refl eq_refl Hcol eq_refl).
Defined.

(** The ideograph U+4E16 written at the start of a line whose second cell
    holds [y] under a line-drawing glyph: it replaces [x], and the second
    cell loses [y] but keeps the glyph. *)
Lemma AppendWithStyle_wide_code_point_witness :
  exists lb',
    AppendWithStyle sampleIsPrint sampleRuneWidth sampleNonPrintable
      (NewLineBuilder glyphLine sampleConfig 1) 7%Z [0x4E16%Z] = Ok lb'
    /\ cells (line lb')
       = [mkCell [0x4E16%Z] (mkCellStyle 7%Z 0 0); mkCell [] (mkCellStyle 0%Z 0 5)]
    /\ cellIndex lb' = 2
    /\ column lb' = 3.
Proof.
  assert (Hcol : startColumn (NewLineBuilder glyphLine sampleConfig 1)
                 <= column (NewLineBuilder glyphLine sampleConfig 1))
    by (vm_compute; discriminate).
  destruct (AppendWithStyle_wide_code_point sampleIsPrint sampleRuneWidth
              sampleNonPrintable (NewLineBuilder glyphLine sampleConfig 1) 7%Z
              0x4E16%Z (mkCell [120%Z] (mkCellStyle 0%Z 0 0))
              eq_refl eq_refl eq_refl Hcol eq_refl)
    as (lb' & Hrun & _ & Hnext & _).
  exists lb'. split; [exact Hrun|].
  destruct (Hnext (mkCell [121%Z] (mkCellStyle 0%Z 0 5)) eq_refl) as [Hkept Hidx].
  vm_compute in Hrun. injection Hrun as <-. repeat split.
Defined.

(** The title U+4E16 set on a framed window of three rows and seven
    columns: the ideograph goes to the fourth cell of the top row, and the
    fifth cell, where its right half lies, is emptied but still carries the
    horizontal bar of the frame as its glyph override. *)
Lemma SetTitle_wide_title_leaves_frame_glyph :
  exists win',
    SetTitle sampleIsPrint sampleRuneWidth sampleNonPrintable framedWindow 7%Z
      [0x4E16%Z]
    = Ok (win', None)
    /\ cellOf framedWindow 0 4 = Some (mkCell [] (mkCellStyle 0%Z 0 5))
    /\ cellOf win' 0 3 = Some (mkCell [0x4E16%Z] (mkCellStyle 7%Z 0 0))
    /\ cellOf win' 0 4 = Some (mkCell [] (mkCellStyle 0%Z 0 5))
    /\ cellOf win' 0 5 = Some (mkCell [32%Z] (mkCellStyle 7%Z 0 0)).
Proof. eexists. split_and!; vm_compute; reflexivity. Qed.

(** *** Runs of width-one code points *)

Lemma insert_as_alter (f : Cell -> Cell) (cs : list Cell) (i : nat) (c : Cell) :
  cs !! i = Some c -> <[i := f c]> cs = alter f i cs.
Proof.
  intros Hc. apply list_eq. intros j.
  destruct (decide (i = j)) as [<-|Hne].
  - rewrite list_lookup_insert_eq by (eapply lookup_lt_Some; exact Hc).
    now rewrite list_lookup_alter_eq, Hc.
  - now rewrite list_lookup_insert_ne, list_lookup_alter_ne.
Qed.

Lemma writePlain_length (cmp : ThemeComponentId) (str : list rune) :
  forall (i : nat) (cs : list Cell), length (writePlain cmp i str cs) = length cs.
Proof.
  induction str as [|r str IH]; intros i cs; simpl; [reflexivity|].
  now rewrite IH, length_alter.
Qed.

Lemma writePlain_lookup_outside (cmp : ThemeComponentId) (str : list rune) :
  forall (i j : nat) (cs : list Cell),
    (j < i \/ i + length str <= j)%nat ->
    writePlain cmp i str cs !! j = cs !! j.
Proof.
  induction str as [|r str IH]; intros i j cs Hj; simpl in *; [reflexivity|].
  rewrite IH by lia. apply list_lookup_alter_ne. lia.
Qed.

Lemma writePlain_lookup_inside (cmp : ThemeComponentId) (str : list rune) :
  forall (i k : nat) (cs : list Cell) (r : rune),
    str !! k = Some r ->
    writePlain cmp i str cs !! (i + k)%nat = setCell r cmp <$> cs !! (i + k)%nat.
Proof.
  induction str as [|r0 str IH]; intros i k cs r Hk; [discriminate|].
  destruct k as [|k]; simpl in *.
  - injection Hk as ->. rewrite Nat.add_0_r.
    rewrite writePlain_lookup_outside by lia.
    apply list_lookup_alter_eq.
  - replace (i + S k)%nat with (S i + k)%nat by lia.
    rewrite (IH (S i) k _ r Hk).
    now rewrite list_lookup_alter_ne by lia.
Qed.

Section Headers.

Variable IsPrint : rune -> bool.
Variable RuneWidth : rune -> Z.
Variable nonPrintableCharString : rune -> list rune.

Local Abbreviation AppendStyled :=
  (AppendWithStyle IsPrint RuneWidth nonPrintableCharString).

Local Abbreviation plainRune := (Window.plainRune IsPrint RuneWidth).

(** Past the end of the line nothing is written, whatever the string. *)
Lemma AppendWithStyle_past_end (cmp : ThemeComponentId) (str : list rune)
    (lb : LineBuilder) :
  uintOfInt (GetInt_CV_TAB_WIDTH (config lb)) <> 0 ->
  lenCells lb < cellIndex lb ->
  AppendStyled lb cmp str = Ok lb.
Proof.
  intros Htab Hpast. apply N.ltb_lt in Hpast.
  induction str as [|r str IH]; simpl; [reflexivity|].
  destruct (DetermineRenderedCodePoint_cases IsPrint RuneWidth
              nonPrintableCharString r (column lb) (config lb))
    as [(rs & ->) | (_ & Hzero)]; [|contradiction].
  simpl.
  assert (Hbreak : appendRendered lb cmp rs = Ok lb).
  { destruct rs as [|r0 rs]; simpl; [reflexivity|now rewrite Hpast]. }
  rewrite Hbreak. simpl. exact IH.
Qed.

(** A run of plain code points that fits between the cell index and the end
    of the line, at or after the start column, is written cell by cell. *)
Lemma AppendWithStyle_plain (cmp : ThemeComponentId) (str : list rune) :
  forall lb : LineBuilder,
    Forall plainRune str ->
    N.of_nat (length (cells (line lb))) < uintModulus ->
    cellIndex lb + N.of_nat (length str) <= N.of_nat (length (cells (line lb))) ->
    startColumn lb <= column lb ->
    column lb + N.of_nat (length str) < uintModulus ->
    AppendStyled lb cmp str
    = Ok (mkLineBuilder
            (mkLine (writePlain cmp (N.to_nat (cellIndex lb)) str (cells (line lb))))
            (cellIndex lb + N.of_nat (length str))
            (column lb + N.of_nat (length str))
            (startColumn lb) (config lb)).
Proof.
  induction str as [|r str IH]; intros lb Hplain Hlen Hfit Hcol Hwrap.
  - simpl. rewrite !N.add_0_r. now destruct lb as [[cs] ci co st cfg].
  - apply Forall_cons in Hplain as [[Hprint Hone] Hplain].
    simpl length in *.
    assert (Hlc : lenCells lb = N.of_nat (length (cells (line lb))))
      by (apply uintOfLen_small; exact Hlen).
    assert (Hin : cellIndex lb < lenCells lb) by lia.
    destruct (lookup_lt_is_Some_2 (cells (line lb)) (N.to_nat (cellIndex lb)))
      as [c Hc]; [lia|].
    simpl AppendWithStyle.
    rewrite DetermineRenderedCodePoint_printable, Hone by assumption.
    simpl. replace (lenCells lb <? cellIndex lb) with false
      by (symmetry; apply N.ltb_ge; lia).
    change (1 <? 1) with false. change (0 <? 1) with true. cbv iota.
    rewrite (setCellAndAdvanceIndex_writes lb r 1 cmp c Hin Hcol Hc).
    simpl. rewrite (insert_as_alter (setCell r cmp) _ _ c Hc).
    rewrite !uadd_small by lia.
    rewrite IH; simpl; rewrite ?length_alter; try assumption; try lia.
    f_equal. f_equal; [|lia|lia].
    f_equal. f_equal. lia.
Qed.

Local Abbreviation SetFooter' :=
  (SetFooter IsPrint RuneWidth nonPrintableCharString).

Lemma storeLine_same (win : Window) (rowIndex : N) (l : Line) :
  lines win !! N.to_nat rowIndex = Some l -> storeLine win rowIndex l = win.
Proof.
  intros Hl. unfold storeLine, withLines. rewrite (list_insert_id _ _ _ Hl).
  now destruct win.
Qed.

(** On a window of at least three rows and columns [SetFooter] reaches the
    line builder of the bottom row. *)
Lemma SetFooter_on_bottom_row (win : Window) (cmp : ThemeComponentId)
    (text : list rune) :
  wfWindow win -> 3 <= rows win -> 3 <= cols win ->
  exists l,
    lines win !! N.to_nat (rows win - 1) = Some l
    /\ length (cells l) = N.to_nat (cols win)
    /\ SetFooter' win cmp text
       = let formattedLen := uintOfLen (length (paddedHeader text)) in
         if uadd (cols win) 2 <? formattedLen then Ok (win, None)
         else
           do lb' <- AppendStyled
                       (mkLineBuilder l (usub (cols win) (uadd 2 formattedLen))
                          (uadd (usub (cols win) (uadd 2 formattedLen)) 1) 1
                          (winConfig win))
                       cmp (paddedHeader text);
           Ok (storeLine win (rows win - 1) (line lb'), None).
Proof.
  intros Hwf Hrows Hcols.
  pose proof Hwf as (_ & _ & Hrmax & _).
  assert (Hlast : usub (rows win) 1 = rows win - 1).
  { apply usub_small; [lia|]. change uintModulus with (2 ^ 64).
    eapply N.lt_trans; [exact Hrmax|reflexivity]. }
  destruct (lineAt_in_range win (rows win - 1) Hwf) as (l & Hl & Hat & Hlen); [lia|].
  exists l. split; [exact Hl|]. split; [exact Hlen|].
  unfold SetFooter, setHeader, Window_LineBuilder. rewrite Hlast.
  replace (rows win <? 1) with false by (symmetry; apply N.ltb_ge; lia).
  replace (rows win <? 3) with false by (symmetry; apply N.ltb_ge; lia).
  replace (cols win <? 3) with false by (symmetry; apply N.ltb_ge; lia).
  replace (rows win <=? rows win - 1) with false by (symmetry; apply N.leb_gt; lia).
  simpl. rewrite Hat. simpl.
  now destruct (uadd (cols win) 2 <? uintOfLen (length (paddedHeader text))).
Qed.

(** C6, as the code has it: [SetFooter] never returns an error; with [L]
    the number of code points of the text between its two padding spaces,
    it writes nothing whenever the window has fewer than three rows or
    columns or [L + 2] exceeds the column count; when [L + 2] is at most the
    column count and the padded text consists of printable code points of
    width one, the [L] code points go, untruncated, to the cells
    [cols - 2 - L] to [cols - 3] of the bottom row, the two cells at the
    right edge and every other cell being left as they were. *)
Theorem SetFooter_right_justified (win : Window) (cmp : ThemeComponentId)
    (text : list rune) :
  wfWindow win ->
  uintOfInt (GetInt_CV_TAB_WIDTH (winConfig win)) <> 0 ->
  N.of_nat (length (paddedHeader text)) < 2 ^ 63 ->
  (exists win', SetFooter' win cmp text = Ok (win', None))
  /\ (rows win < 3 \/ cols win < 3
      \/ cols win < N.of_nat (length (paddedHeader text)) + 2 ->
      SetFooter' win cmp text = Ok (win, None))
  /\ (3 <= rows win ->
      N.of_nat (length (paddedHeader text)) + 2 <= cols win ->
      Forall plainRune (paddedHeader text) ->
      let first := N.to_nat (cols win - 2 - N.of_nat (length (paddedHeader text))) in
      exists l l',
        lines win !! N.to_nat (rows win - 1) = Some l
        /\ SetFooter' win cmp text = Ok (storeLine win (rows win - 1) l', None)
        /\ length (cells l') = length (cells l)
        /\ (forall k r, paddedHeader text !! k = Some r ->
              cells l' !! (first + k)%nat
              = setCell r cmp <$> cells l !! (first + k)%nat)
        /\ (forall j, (j < first \/ N.to_nat (cols win - 2) <= j)%nat ->
              cells l' !! j = cells l !! j)).
Proof.
  intros Hwf Htab Htext.
  pose proof Hwf as (_ & _ & Hrmax & Hcmax).
  set (L := N.of_nat (length (paddedHeader text))) in *.
  assert (Hpow : (2 ^ 63 : N) = 9223372036854775808) by reflexivity.
  assert (HL : uintOfLen (length (paddedHeader text)) = L)
    by (apply uintOfLen_small; fold L; change uintModulus with (2 ^ 64); lia).
  assert (Hsmall : rows win < 3 \/ cols win < 3 ->
                   SetFooter' win cmp text = Ok (win, None)).
  { intros Hs. unfold SetFooter, setHeader.
    destruct (rows win <? 1); [reflexivity|].
    replace ((rows win <? 3) || (cols win <? 3)) with true; [reflexivity|].
    symmetry. apply orb_true_iff. destruct Hs; [left|right]; now apply N.ltb_lt. }
  assert (Hlong : 3 <= rows win -> 3 <= cols win -> cols win < L + 2 ->
                  SetFooter' win cmp text = Ok (win, None)).
  { intros Hrows Hcols Hover.
    destruct (SetFooter_on_bottom_row win cmp text Hwf Hrows Hcols)
      as (l & Hl & Hlen & ->).
    cbv zeta. rewrite HL.
    destruct (uadd (cols win) 2 <? L) eqn:Hguard; [reflexivity|].
    apply N.ltb_ge in Hguard.
    rewrite AppendWithStyle_past_end.
    - simpl. now rewrite storeLine_same.
    - exact Htab.
    - unfold lenCells. simpl. rewrite Hlen. uint_lia. }
  assert (Hfits : 3 <= rows win -> L + 2 <= cols win ->
                  exists l, lines win !! N.to_nat (rows win - 1) = Some l
                    /\ length (cells l) = N.to_nat (cols win)
                    /\ SetFooter' win cmp text
                       = do lb' <- AppendStyled
                                     (mkLineBuilder l (cols win - 2 - L)
                                        (cols win - 2 - L + 1) 1 (winConfig win))
                                     cmp (paddedHeader text);
                         Ok (storeLine win (rows win - 1) (line lb'), None)).
  { intros Hrows Hfit.
    assert (Hcols : 3 <= cols win) by (unfold L in *; simpl in *; lia).
    destruct (SetFooter_on_bottom_row win cmp text Hwf Hrows Hcols)
      as (l & Hl & Hlen & ->).
    exists l. split; [exact Hl|]. split; [exact Hlen|].
    cbv zeta. rewrite HL.
    replace (uadd (cols win) 2 <? L) with false
      by (symmetry; apply N.ltb_ge; uint_lia).
    replace (usub (cols win) (uadd 2 L)) with (cols win - 2 - L) by uint_lia.
    replace (uadd (cols win - 2 - L) 1) with (cols win - 2 - L + 1) by uint_lia.
    reflexivity. }
  split_and!.
  - destruct (N.lt_ge_cases (rows win) 3) as [Hr|Hr]; [rewrite Hsmall; eauto|].
    destruct (N.lt_ge_cases (cols win) 3) as [Hc|Hc]; [rewrite Hsmall; eauto|].
    destruct (N.lt_ge_cases (cols win) (L + 2)) as [Ho|Ho]; [rewrite Hlong; eauto|].
    destruct (Hfits Hr Ho) as (l & _ & _ & ->).
    destruct (AppendWithStyle_total IsPrint RuneWidth nonPrintableCharString cmp
                (paddedHeader text)
                (mkLineBuilder l (cols win - 2 - L) (cols win - 2 - L + 1) 1
                   (winConfig win)) Htab) as (lb' & -> & _).
    simpl. eauto.
  - intros [Hr | [Hc | Ho]]; [apply Hsmall; now left|apply Hsmall; now right|].
    destruct (N.lt_ge_cases (rows win) 3) as [Hr|Hr]; [apply Hsmall; now left|].
    destruct (N.lt_ge_cases (cols win) 3) as [Hc|Hc]; [apply Hsmall; now right|].
    now apply Hlong.
  - intros Hrows Hfit Hplain first.
    destruct (Hfits Hrows Hfit) as (l & Hl & Hlen & ->).
    rewrite AppendWithStyle_plain;
      cbn [line cells cellIndex column startColumn]; try assumption.
    + exists l, (mkLine (writePlain cmp first (paddedHeader text) (cells l))).
      cbn [bind line cells].
      split_and!; [exact Hl|reflexivity|apply writePlain_length| |].
      * intros k r Hk. now apply writePlain_lookup_inside.
      * intros j Hj. apply writePlain_lookup_outside. fold L. unfold first. lia.
    + rewrite Hlen. change uintModulus with (2 ^ 64). lia.
    + fold L. rewrite Hlen. lia.
    + lia.
    + fold L. change uintModulus with (2 ^ 64). lia.
Qed.

End Headers.

Lemma sampleConfig_tab_width :
  uintOfInt (GetInt_CV_TAB_WIDTH (winConfig sampleWindow)) <> 0.
Proof. vm_compute. discriminate. Qed.

(** On the window of three rows and five columns the footer [a], three
    code points with its padding, is written to the first three cells of
    the bottom row; the footer [abc], five code points with its padding, is
    not written. *)
Lemma SetFooter_right_justified_witness :
  (exists l',
     SetFooter sampleIsPrint sampleRuneWidth sampleNonPrintable sampleWindow 7%Z [97%Z]
     = Ok (storeLine sampleWindow 2 l', None)
     /\ cells l' !! 1%nat = Some (mkCell [97%Z] (mkCellStyle 7%Z 0 0))
     /\ cells l' !! 3%nat = Some zeroCell)
  /\ SetFooter sampleIsPrint sampleRuneWidth sampleNonPrintable sampleWindow 7%Z
       [97%Z; 98%Z; 99%Z]
     = Ok (sampleWindow, None).
Proof.
  split.
  - destruct (SetFooter_right_justified sampleIsPrint sampleRuneWidth
                sampleNonPrintable sampleWindow 7%Z [97%Z] sampleWindow_wf
                sampleConfig_tab_width eq_refl) as (_ & _ & Hfit).
    destruct Hfit as (l & l' & Hl & Hrun & _ & Hin & Hout).
    + vm_compute. discriminate.
    + vm_compute. discriminate.
    + repeat constructor.
    + injection Hl as <-. exists l'. split; [exact Hrun|]. split.
      * exact (Hin 1%nat 97%Z eq_refl).
      * apply (Hout 3%nat). right. vm_compute. lia.
  - apply (SetFooter_right_justified sampleIsPrint sampleRuneWidth
             sampleNonPrintable sampleWindow 7%Z [97%Z; 98%Z; 99%Z] sampleWindow_wf
             sampleConfig_tab_width eq_refl).
    right. right. reflexivity.
Defined.

(** C6 as stated fails: on the window of three rows and five columns the
    footer [abc] makes five code points with its padding, which is the
    column count, and yet nothing is written. *)
Lemma SetFooter_skips_footer_that_fits :
  N.of_nat (length (paddedHeader [97%Z; 98%Z; 99%Z])) <= cols sampleWindow
  /\ SetFooter sampleIsPrint sampleRuneWidth sampleNonPrintable sampleWindow 7%Z
       [97%Z; 98%Z; 99%Z]
     = Ok (sampleWindow, None).
Proof. split; [vm_compute; discriminate|reflexivity]. Qed.

End WindowProps.

(* ===================================================================== *)
(** ** Further properties of the line writer *)
(* ===================================================================== *)

Module LineWriterProps.

Import Window WindowProps.
Local Open Scope N_scope.

(** *** What every step keeps *)

Lemma writerStep_refl (lb : LineBuilder) : writerStep lb lb.
Proof. unfold writerStep. split_and!; auto; lia. Qed.

Lemma writerStep_trans (lb1 lb2 lb3 : LineBuilder) :
  writerStep lb1 lb2 -> writerStep lb2 lb3 -> writerStep lb1 lb3.
Proof.
  intros (Hl1 & Hs1 & Hc1 & Hm1 & Hb1 & Hf1 & Hg1)
         (Hl2 & Hs2 & Hc2 & Hm2 & Hb2 & Hf2 & Hg2).
  assert (Hlen : lenCells lb2 = lenCells lb1) by (unfold lenCells; now rewrite Hl1).
  unfold writerStep. split_and!; try congruence; try lia.
  - intros j Hj. rewrite Hf2 by lia. now apply Hf1.
  - intros j Hj. rewrite Hg2 by lia. apply Hg1. lia.
Qed.

Lemma setCellAndAdvanceIndex_step (lb lb' : LineBuilder) (r : rune) (w : N)
    (cmp : ThemeComponentId) :
  setCellAndAdvanceIndex lb r w cmp = Ok lb' -> writerStep lb lb'.
Proof.
  unfold setCellAndAdvanceIndex.
  destruct (cellIndex lb <? lenCells lb) eqn:Hin;
    [|intros [= <-]; apply writerStep_refl].
  apply N.ltb_lt in Hin.
  pose proof (lenCells_le lb) as Hle. pose proof (lenCells_lt lb) as Hlt.
  destruct (startColumn lb <=? column lb).
  - destruct (updateCell_in_range (line lb) (cellIndex lb) (setCell r cmp))
      as (c & _ & ->); [lia|].
    simpl. intros [= <-]. unfold writerStep. simpl.
    rewrite length_insert, uadd_small by lia.
    split_and!; auto; try lia.
    + intros j Hj. apply list_lookup_insert_ne. lia.
    + intros j Hj. apply list_lookup_insert_ne. lia.
  - simpl. intros [= <-]. unfold writerStep. simpl. split_and!; auto; lia.
Qed.

Lemma clearLoop_step (count : nat) :
  forall lb lb', clearLoop count lb = Ok lb' -> writerStep lb lb'.
Proof.
  induction count as [|count IH]; intros lb lb'; simpl.
  - intros [= <-]. apply writerStep_refl.
  - destruct (cellIndex lb <? lenCells lb) eqn:Hin;
      [|intros [= <-]; apply writerStep_refl].
    apply N.ltb_lt in Hin.
    pose proof (lenCells_le lb) as Hle. pose proof (lenCells_lt lb) as Hlt.
    destruct (updateCell_in_range (line lb) (cellIndex lb) resetCodePoints)
      as (c & _ & ->); [lia|].
    simpl. intros Hrun. apply IH in Hrun.
    eapply writerStep_trans; [|exact Hrun].
    unfold writerStep. simpl. rewrite length_insert, uadd_small by lia.
    split_and!; auto; try lia.
    + intros j Hj. apply list_lookup_insert_ne. lia.
    + intros j Hj. apply list_lookup_insert_ne. lia.
Qed.

Lemma appendToPreviousCell_step (lb lb' : LineBuilder) (r : rune) :
  cellIndex lb <= lenCells lb ->
  appendToPreviousCell lb r = Ok lb' -> writerStep lb lb'.
Proof.
  intros Hin. unfold appendToPreviousCell.
  destruct (0 <? cellIndex lb) eqn:Hpos;
    [|intros [= <-]; apply writerStep_refl].
  apply N.ltb_lt in Hpos.
  pose proof (lenCells_le lb) as Hle. pose proof (lenCells_lt lb) as Hlt.
  rewrite usub_small by lia.
  destruct (updateCell_in_range (line lb) (cellIndex lb - 1) (writeRune r))
    as (c & _ & ->); [lia|].
  simpl. intros [= <-]. unfold writerStep. simpl. rewrite length_insert.
  split_and!; auto; try lia.
  - intros j Hj. apply list_lookup_insert_ne. lia.
  - intros j Hj. apply list_lookup_insert_ne. lia.
Qed.

Lemma appendRendered_step (cmp : ThemeComponentId) (rs : list RenderedCodePoint) :
  forall lb lb', appendRendered lb cmp rs = Ok lb' -> writerStep lb lb'.
Proof.
  induction rs as [|r rs IH]; intros lb lb'; simpl.
  - intros [= <-]. apply writerStep_refl.
  - destruct (lenCells lb <? cellIndex lb) eqn:Hbreak;
      [intros [= <-]; apply writerStep_refl|].
    apply N.ltb_ge in Hbreak.
    destruct (1 <? width r).
    + destruct (setCellAndAdvanceIndex lb (codePoint r) (width r) cmp)
        as [lb1|] eqn:H1; [|discriminate].
      simpl. destruct (Clear lb1 (usub (width r) 1)) as [lb2|] eqn:H2; [|discriminate].
      simpl. intros Hrest.
      eapply writerStep_trans; [eapply setCellAndAdvanceIndex_step; exact H1|].
      eapply writerStep_trans; [eapply clearLoop_step; exact H2|].
      now apply IH.
    + destruct (0 <? width r).
      * destruct (setCellAndAdvanceIndex lb (codePoint r) (width r) cmp)
          as [lb1|] eqn:H1; [|discriminate].
        simpl. intros Hrest.
        eapply writerStep_trans; [eapply setCellAndAdvanceIndex_step; exact H1|].
        now apply IH.
      * destruct (appendToPreviousCell lb (codePoint r)) as [lb1|] eqn:H1;
          [|discriminate].
        simpl. intros Hrest.
        eapply writerStep_trans; [eapply appendToPreviousCell_step; eassumption|].
        now apply IH.
Qed.

Section Invariants.

Variable IsPrint : rune -> bool.
Variable RuneWidth : rune -> Z.
Variable nonPrintableCharString : rune -> list rune.

Local Abbreviation AppendStyled :=
  (AppendWithStyle IsPrint RuneWidth nonPrintableCharString).

Lemma AppendWithStyle_step (cmp : ThemeComponentId) (str : list rune) :
  forall lb lb', AppendStyled lb cmp str = Ok lb' -> writerStep lb lb'.
Proof.
  induction str as [|r str IH]; intros lb lb'; simpl.
  - intros [= <-]. apply writerStep_refl.
  - destruct (DetermineRenderedCodePoint IsPrint RuneWidth nonPrintableCharString
                r (column lb) (config lb)) as [rs|]; [|discriminate].
    simpl. destruct (appendRendered lb cmp rs) as [lb1|] eqn:H1; [|discriminate].
    simpl. intros Hrest.
    eapply writerStep_trans; [eapply appendRendered_step; exact H1|].
    now apply IH.
Qed.

Lemma AppendWithStyle_app (cmp : ThemeComponentId) (s1 s2 : list rune) :
  forall lb,
    AppendStyled lb cmp (s1 ++ s2)
    = do lb' <- AppendStyled lb cmp s1; AppendStyled lb' cmp s2.
Proof.
  induction s1 as [|r s1 IH]; intros lb; simpl; [reflexivity|].
  destruct (DetermineRenderedCodePoint IsPrint RuneWidth nonPrintableCharString
              r (column lb) (config lb)) as [rs|]; [|reflexivity].
  simpl. destruct (appendRendered lb cmp rs) as [lb1|]; [|reflexivity].
  simpl. apply IH.
Qed.

(** Whatever is appended, with a tab width that is not zero: the line keeps
    its number of cells, the builder its start column and configuration;
    the cell index never decreases and, if it was within the line, stays
    within it; and no cell is touched other than those from the one before
    the old cell index up to, not including, the new cell index. *)
Theorem AppendWithStyle_keeps_line_shape (lb : LineBuilder) (cmp : ThemeComponentId)
    (str : list rune) :
  uintOfInt (GetInt_CV_TAB_WIDTH (config lb)) <> 0 ->
  exists lb', AppendStyled lb cmp str = Ok lb' /\ writerStep lb lb'.
Proof.
  intros Htab.
  destruct (AppendWithStyle_total IsPrint RuneWidth nonPrintableCharString cmp str
              lb Htab) as (lb' & Hrun & _).
  exists lb'. split; [exact Hrun|]. eapply AppendWithStyle_step. exact Hrun.
Qed.

End Invariants.

Lemma AppendWithStyle_keeps_line_shape_witness :
  exists lb',
    AppendWithStyle sampleIsPrint sampleRuneWidth sampleNonPrintable
      (mkLineBuilder sampleLine 1 2 1 sampleConfig) 7%Z [0x301%Z; 9%Z; 0x4E16%Z]
    = Ok lb'
    /\ length (cells (line lb')) = 2%nat
    /\ cellIndex lb' <= 2.
Proof.
  destruct (AppendWithStyle_keeps_line_shape sampleIsPrint sampleRuneWidth
              sampleNonPrintable (mkLineBuilder sampleLine 1 2 1 sampleConfig) 7%Z
              [0x301%Z; 9%Z; 0x4E16%Z])
    as (lb' & Hrun & Hlen & _ & _ & _ & Hin & _).
  - vm_compute. discriminate.
  - exists lb'. split; [exact Hrun|]. split; [exact Hlen|].
    apply Hin. vm_compute. discriminate.
Defined.

(** *** Zero-width code points, full lines, long and scrolled text *)

Lemma clearLoop_at_end (count : nat) (lb : LineBuilder) :
  lenCells lb <= cellIndex lb -> clearLoop count lb = Ok lb.
Proof.
  intros Hend. apply N.ltb_ge in Hend.
  destruct count; simpl; [reflexivity|now rewrite Hend].
Qed.

Lemma appendRendered_at_end (cmp : ThemeComponentId) (rs : list RenderedCodePoint)
    (lb : LineBuilder) :
  lenCells lb <= cellIndex lb ->
  Forall (fun r => width r <> 0) rs ->
  appendRendered lb cmp rs = Ok lb.
Proof.
  intros Hend Hrs. induction Hrs as [|r rs Hr _ IH]; simpl; [reflexivity|].
  destruct (lenCells lb <? cellIndex lb); [reflexivity|].
  assert (Hset : setCellAndAdvanceIndex lb (codePoint r) (width r) cmp = Ok lb).
  { unfold setCellAndAdvanceIndex. apply N.ltb_ge in Hend. now rewrite Hend. }
  destruct (1 <? width r).
  - rewrite Hset. simpl. unfold Clear. rewrite clearLoop_at_end by exact Hend.
    simpl. exact IH.
  - destruct (0 <? width r) eqn:Hpos.
    + rewrite Hset. simpl. exact IH.
    + apply N.ltb_ge in Hpos. lia.
Qed.

Section Text.

Variable IsPrint : rune -> bool.
Variable RuneWidth : rune -> Z.
Variable nonPrintableCharString : rune -> list rune.

Local Abbreviation Determine :=
  (DetermineRenderedCodePoint IsPrint RuneWidth nonPrintableCharString).
Local Abbreviation AppendStyled :=
  (AppendWithStyle IsPrint RuneWidth nonPrintableCharString).
Local Abbreviation plainRune := (Window.plainRune IsPrint RuneWidth).
Local Abbreviation shownFor := (Window.shownFor nonPrintableCharString).

(** A printable code point of width zero joins the code points of the cell
    before the cell index, whose style it keeps, and moves neither the cell
    index nor the column counter; at cell index zero, or past the end of
    the line, it is dropped.  The start column plays no part. *)
Theorem AppendWithStyle_zero_width (lb : LineBuilder) (cmp : ThemeComponentId)
    (r : rune) :
  IsPrint r = true ->
  uintOfInt (RuneWidth r) = 0 ->
  (cellIndex lb = 0 \/ lenCells lb < cellIndex lb -> AppendStyled lb cmp [r] = Ok lb)
  /\ (forall c,
        0 < cellIndex lb <= lenCells lb ->
        cells (line lb) !! N.to_nat (cellIndex lb - 1) = Some c ->
        AppendStyled lb cmp [r]
        = Ok (withLine lb
                (mkLine (<[N.to_nat (cellIndex lb - 1) := mkCell (codePoints c ++ [r]) (style c)]>
                           (cells (line lb)))))).
Proof.
  intros Hprint Hzero.
  assert (Hrun : AppendStyled lb cmp [r]
                 = if lenCells lb <? cellIndex lb then Ok lb
                   else appendToPreviousCell lb r).
  { simpl. rewrite DetermineRenderedCodePoint_printable, Hzero by assumption.
    simpl. destruct (lenCells lb <? cellIndex lb); [reflexivity|].
    now destruct (appendToPreviousCell lb r). }
  rewrite Hrun. split.
  - intros [Hz | Hpast].
    + unfold appendToPreviousCell. rewrite Hz.
      now destruct (lenCells lb <? 0).
    + apply N.ltb_lt in Hpast. now rewrite Hpast.
  - intros c [Hpos Hin] Hc.
    pose proof (lenCells_lt lb) as Hlt.
    replace (lenCells lb <? cellIndex lb) with false
      by (symmetry; apply N.ltb_ge; exact Hin).
    unfold appendToPreviousCell, updateCell, cellAt.
    replace (0 <? cellIndex lb) with true by (symmetry; now apply N.ltb_lt).
    rewrite usub_small by lia. now rewrite Hc.
Qed.

(** Every rendered code point of a code point that is not printable takes
    one column. *)
Lemma DetermineRenderedCodePoint_nonprintable_widths (r : rune) (column : N)
    (cfg : Config) (rs : list RenderedCodePoint) :
  IsPrint r = false ->
  Determine r column cfg = Ok rs ->
  Forall (fun rc => width rc = 1) rs.
Proof.
  intros Hnp. unfold DetermineRenderedCodePoint. rewrite Hnp. simpl.
  destruct (r =? 9)%Z.
  - destruct (uintOfInt (GetInt_CV_TAB_WIDTH cfg) =? 0); [discriminate|].
    intros [= <-]. apply Forall_forall. intros rc Hrc.
    apply list_elem_of_In, repeat_spec in Hrc. now subst rc.
  - destruct (negb (r =? 10)%Z && ((r <? 32)%Z || (r =? 127)%Z)).
    + intros [= <-]. apply Forall_forall. intros rc Hrc.
      apply list_elem_of_In, in_map_iff in Hrc as (x & <- & _). reflexivity.
    + intros [= <-]. repeat constructor.
Qed.

Lemma AppendWithStyle_at_end (cmp : ThemeComponentId) (str : list rune)
    (lb : LineBuilder) :
  lenCells lb <= cellIndex lb ->
  Forall (fun r => if IsPrint r then uintOfInt (RuneWidth r) <> 0
                   else uintOfInt (GetInt_CV_TAB_WIDTH (config lb)) <> 0) str ->
  AppendStyled lb cmp str = Ok lb.
Proof.
  intros Hend Hstr. induction Hstr as [|r str Hr _ IH]; simpl; [reflexivity|].
  destruct (IsPrint r) eqn:Hprint.
  - rewrite DetermineRenderedCodePoint_printable by exact Hprint. cbn [bind].
    rewrite appendRendered_at_end; [exact IH|exact Hend|].
    repeat constructor. exact Hr.
  - destruct (DetermineRenderedCodePoint_cases IsPrint RuneWidth
                nonPrintableCharString r (column lb) (config lb))
      as [(rs & Hrs) | (_ & Hzero)]; [|contradiction].
    rewrite Hrs. cbn [bind].
    rewrite appendRendered_at_end; [exact IH|exact Hend|].
    eapply Forall_impl;
      [eapply DetermineRenderedCodePoint_nonprintable_widths; eassumption|].
    intros rc Hw. simpl in Hw. rewrite Hw. discriminate.
Qed.

(** Once the cell index has reached the end of the line, appending code
    points none of which has width zero changes nothing: no cell, not the
    cell index and not the column counter either. *)
Theorem AppendWithStyle_full_line (lb : LineBuilder) (cmp : ThemeComponentId)
    (str : list rune) :
  uintOfInt (GetInt_CV_TAB_WIDTH (config lb)) <> 0 ->
  lenCells lb <= cellIndex lb ->
  Forall (fun r => IsPrint r = true -> uintOfInt (RuneWidth r) <> 0) str ->
  AppendStyled lb cmp str = Ok lb.
Proof.
  intros Htab Hend Hstr. apply AppendWithStyle_at_end; [exact Hend|].
  eapply Forall_impl; [exact Hstr|].
  intros r Hr. simpl in Hr. destruct (IsPrint r); auto.
Qed.

Lemma plainRune_at_end (lb : LineBuilder) (str : list rune) :
  Forall plainRune str ->
  Forall (fun r => if IsPrint r then uintOfInt (RuneWidth r) <> 0
                   else uintOfInt (GetInt_CV_TAB_WIDTH (config lb)) <> 0) str.
Proof.
  intros Hstr. eapply Forall_impl; [exact Hstr|].
  intros r [Hprint Hone]. simpl. rewrite Hprint, Hone. discriminate.
Qed.

Lemma AppendWithStyle_plain_cut (lb : LineBuilder) (cmp : ThemeComponentId)
    (str : list rune) :
  Forall plainRune str ->
  N.of_nat (length (cells (line lb))) < uintModulus ->
  cellIndex lb <= N.of_nat (length (cells (line lb))) ->
  startColumn lb <= column lb ->
  column lb + N.of_nat (length str) < uintModulus ->
  let shown := take (length (cells (line lb)) - N.to_nat (cellIndex lb)) str in
  AppendStyled lb cmp str
  = Ok (mkLineBuilder
          (mkLine (writePlain cmp (N.to_nat (cellIndex lb)) shown (cells (line lb))))
          (cellIndex lb + N.of_nat (length shown))
          (column lb + N.of_nat (length shown))
          (startColumn lb) (config lb)).
Proof.
  intros Hplain Hlen Hin Hcol Hwrap shown.
  set (room := (length (cells (line lb)) - N.to_nat (cellIndex lb))%nat) in *.
  rewrite <- (take_drop room str) at 1. fold shown.
  rewrite AppendWithStyle_app.
  assert (Hshown : (length shown <= room)%nat /\ (length shown <= length str)%nat).
  { unfold shown. rewrite length_take. lia. }
  rewrite AppendWithStyle_plain; try assumption.
  - cbn [bind].
    destruct (decide (length str <= room)%nat) as [Hfit|Hover].
    + rewrite drop_ge by exact Hfit. reflexivity.
    + apply AppendWithStyle_at_end.
      * unfold lenCells. cbn [line cells cellIndex].
        rewrite writePlain_length, uintOfLen_small by exact Hlen.
        unfold shown. rewrite length_take. lia.
      * apply plainRune_at_end. now apply Forall_drop.
  - now apply Forall_take.
  - lia.
  - lia.
Qed.

(** A run of printable code points of width one, written at or after the
    start column from a cell index within the line, fills the cells up to
    the end of the line and is cut there: what does not fit is dropped and
    moves neither the cell index nor the column counter. *)
Theorem AppendWithStyle_plain_truncates (lb : LineBuilder) (cmp : ThemeComponentId)
    (str : list rune) :
  Forall plainRune str ->
  N.of_nat (length (cells (line lb))) < uintModulus ->
  cellIndex lb <= N.of_nat (length (cells (line lb))) ->
  startColumn lb <= column lb ->
  column lb + N.of_nat (length str) < uintModulus ->
  let first := N.to_nat (cellIndex lb) in
  let shown := take (length (cells (line lb)) - first) str in
  exists lb',
    AppendStyled lb cmp str = Ok lb'
    /\ AppendStyled lb cmp shown = Ok lb'
    /\ cellIndex lb' = cellIndex lb + N.of_nat (length shown)
    /\ column lb' = column lb + N.of_nat (length shown)
    /\ (forall k r, shown !! k = Some r ->
          cells (line lb') !! (first + k)%nat
          = setCell r cmp <$> cells (line lb) !! (first + k)%nat)
    /\ (forall j, (j < first \/ first + length shown <= j)%nat ->
          cells (line lb') !! j = cells (line lb) !! j).
Proof.
  intros Hplain Hlen Hin Hcol Hwrap first shown.
  assert (Hshort : (length shown <= length str)%nat)
    by (unfold shown; rewrite length_take; lia).
  eexists. split; [now apply AppendWithStyle_plain_cut|].
  split_and!; try reflexivity.
  - rewrite AppendWithStyle_plain_cut; try assumption.
    + fold first. unfold shown. now rewrite take_take, Nat.min_id.
    + now apply Forall_take.
    + lia.
  - intros k r Hk. now apply writePlain_lookup_inside.
  - intros j Hj. now apply writePlain_lookup_outside.
Qed.

(** A run of printable code points of width one that ends before the start
    column is not written: only the column counter moves. *)
Lemma AppendWithStyle_plain_hidden (cmp : ThemeComponentId) (str : list rune) :
  forall lb : LineBuilder,
    Forall plainRune str ->
    cellIndex lb < lenCells lb ->
    column lb + N.of_nat (length str) <= startColumn lb ->
    startColumn lb < uintModulus ->
    AppendStyled lb cmp str = Ok (withColumn lb (column lb + N.of_nat (length str))).
Proof.
  induction str as [|r str IH]; intros lb Hplain Hin Hleft Hmax.
  - simpl. rewrite N.add_0_r. now destruct lb.
  - apply Forall_cons in Hplain as [[Hprint Hone] Hplain].
    simpl length in *. simpl AppendWithStyle.
    rewrite DetermineRenderedCodePoint_printable, Hone by assumption.
    simpl. replace (lenCells lb <? cellIndex lb) with false
      by (symmetry; apply N.ltb_ge; lia).
    change (1 <? 1) with false. change (0 <? 1) with true. cbv iota.
    rewrite setCellAndAdvanceIndex_skips by lia.
    simpl. rewrite uadd_small by lia.
    rewrite IH; try assumption; simpl; try lia.
    unfold withColumn. simpl. do 2 f_equal. lia.
Qed.

(** A run of printable code points of width one laid out by a builder that
    has not yet reached its start column: the code points that lie before
    the start column are not shown, the following ones fill the cells from
    the cell index on, and the run is cut at the end of the line. *)
Lemma AppendWithStyle_plain_scrolled (lb : LineBuilder) (cmp : ThemeComponentId)
    (str : list rune) :
  Forall plainRune str ->
  N.of_nat (length (cells (line lb))) < uintModulus ->
  cellIndex lb <= N.of_nat (length (cells (line lb))) ->
  column lb <= startColumn lb ->
  startColumn lb + N.of_nat (length str) < uintModulus ->
  let shown := take (length (cells (line lb)) - N.to_nat (cellIndex lb))
                 (drop (N.to_nat (startColumn lb - column lb)) str) in
  exists lb',
    AppendStyled lb cmp str = Ok lb'
    /\ cells (line lb') = writePlain cmp (N.to_nat (cellIndex lb)) shown (cells (line lb))
    /\ cellIndex lb' = cellIndex lb + N.of_nat (length shown).
Proof.
  intros Hplain Hlen Hin Hcol Hwrap shown.
  assert (Hlc : lenCells lb = N.of_nat (length (cells (line lb))))
    by (apply uintOfLen_small; exact Hlen).
  set (hidden := N.to_nat (startColumn lb - column lb)) in *.
  destruct (decide (cellIndex lb = N.of_nat (length (cells (line lb))))) as [Hfull|Hroom].
  - exists lb. rewrite AppendWithStyle_at_end;
      [|lia|now apply plainRune_at_end].
    assert (Hnone : shown = []).
    { unfold shown.
      replace (length (cells (line lb)) - N.to_nat (cellIndex lb))%nat with 0%nat by lia.
      apply take_0. }
    rewrite Hnone. simpl. rewrite N.add_0_r. auto.
  - assert (Hsplit : AppendStyled lb cmp str
                     = do lb1 <- AppendStyled lb cmp (take hidden str);
                       AppendStyled lb1 cmp (drop hidden str))
      by (now rewrite <- AppendWithStyle_app, take_drop).
    rewrite Hsplit.
    assert (Hhid : (length (take hidden str) <= hidden)%nat
                   /\ (length (take hidden str) <= length str)%nat)
      by (rewrite length_take; lia).
    rewrite AppendWithStyle_plain_hidden;
      [|now apply Forall_take|lia|unfold hidden in *; lia|lia].
    cbn [bind].
    destruct (decide (length str <= hidden)%nat) as [Hall|Hmore].
    + assert (Hnone : drop hidden str = []) by (now apply drop_ge).
      unfold shown. rewrite Hnone, take_nil. simpl.
      eexists. split; [reflexivity|]. simpl. rewrite N.add_0_r. auto.
    + assert (Hexact : length (take hidden str) = hidden)
        by (rewrite length_take; lia).
      rewrite AppendWithStyle_plain_cut;
        unfold withColumn; cbn [line cells cellIndex column startColumn].
      * eexists. split; [reflexivity|]. simpl. auto.
      * now apply Forall_drop.
      * exact Hlen.
      * exact Hin.
      * rewrite Hexact. unfold hidden in *. lia.
      * rewrite length_drop, Hexact. unfold hidden in *. lia.
Qed.

Lemma DetermineRenderedCodePoint_tab (column : N) (cfg : Config) :
  IsPrint 9%Z = false ->
  uintOfInt (GetInt_CV_TAB_WIDTH cfg) <> 0 ->
  1 <= column < uintModulus ->
  exists w,
    Determine 9%Z column cfg
    = Ok (repeat (mkRenderedCodePoint 1 32%Z) (N.to_nat w))
    /\ 1 <= w <= uintOfInt (GetInt_CV_TAB_WIDTH cfg)
    /\ (column - 1 + w) mod uintOfInt (GetInt_CV_TAB_WIDTH cfg) = 0.
Proof.
  intros Hnp. unfold DetermineRenderedCodePoint. rewrite Hnp. simpl.
  set (tabWidth := uintOfInt (GetInt_CV_TAB_WIDTH cfg)).
  intros Htab Hcol.
  replace (tabWidth =? 0) with false by (symmetry; now apply N.eqb_neq).
  assert (Hmax : tabWidth < uintModulus) by (unfold tabWidth; uint_lia).
  assert (Hprev : usub column 1 = column - 1) by (apply usub_small; lia).
  rewrite Hprev.
  pose proof (N.mod_upper_bound (column - 1) tabWidth Htab) as Hrem.
  pose proof (N.div_mod (column - 1) tabWidth Htab) as Hdiv.
  set (m := (column - 1) mod tabWidth) in *.
  set (q := (column - 1) / tabWidth) in *.
  assert (Hw : usub tabWidth m = tabWidth - m) by (apply usub_small; lia).
  rewrite Hw. eexists. split; [reflexivity|]. split; [lia|].
  replace (column - 1 + (tabWidth - m)) with ((1 + q) * tabWidth) by lia.
  apply N.Div0.mod_mul.
Qed.

(** A tab is rendered as one-column spaces, at least one and at most the
    tab width, that bring the column counter to the next tab stop; with a
    tab width of zero its rendering divides by zero. *)
Theorem tab_reaches_next_tab_stop (column : N) (cfg : Config) :
  IsPrint 9%Z = false ->
  (uintOfInt (GetInt_CV_TAB_WIDTH cfg) = 0 ->
     Determine 9%Z column cfg = Panic DivideByZero)
  /\ (uintOfInt (GetInt_CV_TAB_WIDTH cfg) <> 0 ->
      1 <= column < uintModulus ->
      exists w,
        Determine 9%Z column cfg
        = Ok (repeat (mkRenderedCodePoint 1 32%Z) (N.to_nat w))
        /\ 1 <= w <= uintOfInt (GetInt_CV_TAB_WIDTH cfg)
        /\ (column - 1 + w) mod uintOfInt (GetInt_CV_TAB_WIDTH cfg) = 0).
Proof.
  intros Hnp. split.
  - intros Hzero. unfold DetermineRenderedCodePoint. rewrite Hnp, Hzero.
    reflexivity.
  - now apply DetermineRenderedCodePoint_tab.
Qed.

(** Rendered code points of width one are written like a run of plain code
    points, whatever they are. *)
Lemma appendRendered_ones (cmp : ThemeComponentId) (rs : list rune) :
  forall lb : LineBuilder,
    N.of_nat (length (cells (line lb))) < uintModulus ->
    cellIndex lb <= N.of_nat (length (cells (line lb))) ->
    startColumn lb <= column lb ->
    column lb + N.of_nat (length rs) < uintModulus ->
    let shown := take (length (cells (line lb)) - N.to_nat (cellIndex lb)) rs in
    appendRendered lb cmp (map (mkRenderedCodePoint 1) rs)
    = Ok (mkLineBuilder
            (mkLine (writePlain cmp (N.to_nat (cellIndex lb)) shown (cells (line lb))))
            (cellIndex lb + N.of_nat (length shown))
            (column lb + N.of_nat (length shown))
            (startColumn lb) (config lb)).
Proof.
  induction rs as [|r rs IH]; intros lb Hlen Hin Hcol Hwrap shown.
  - unfold shown. rewrite take_nil. simpl. rewrite !N.add_0_r.
    now destruct lb as [[cs] ci co st cfg].
  - assert (Hlc : lenCells lb = N.of_nat (length (cells (line lb))))
      by (apply uintOfLen_small; exact Hlen).
    simpl length in Hwrap.
    destruct (decide (cellIndex lb = N.of_nat (length (cells (line lb))))) as [Hfull|Hroom].
    + rewrite appendRendered_at_end.
      * unfold shown.
        replace (length (cells (line lb)) - N.to_nat (cellIndex lb))%nat with 0%nat by lia.
        rewrite take_0. simpl. rewrite !N.add_0_r.
        now destruct lb as [[cs] ci co st cfg].
      * lia.
      * apply Forall_forall. intros rc Hrc.
        apply list_elem_of_In, in_map_iff in Hrc as (x & <- & _). discriminate.
    + destruct (lookup_lt_is_Some_2 (cells (line lb)) (N.to_nat (cellIndex lb)))
        as [c Hc]; [lia|].
      cbn [map appendRendered width codePoint].
      replace (lenCells lb <? cellIndex lb) with false
        by (symmetry; apply N.ltb_ge; lia).
      change (1 <? 1) with false. change (0 <? 1) with true. cbv iota.
      rewrite (setCellAndAdvanceIndex_writes lb r 1 cmp c); [|lia|exact Hcol|exact Hc].
      cbn [bind]. rewrite (insert_as_alter (setCell r cmp) _ _ c Hc).
      rewrite !uadd_small by lia.
      rewrite IH; cbn [line cells cellIndex column startColumn config];
        rewrite ?length_alter; try assumption; try lia.
      unfold shown.
      replace (length (cells (line lb)) - N.to_nat (cellIndex lb))%nat
        with (S (length (cells (line lb)) - N.to_nat (cellIndex lb + 1)))%nat by lia.
      cbn [take length writePlain].
      replace (N.to_nat (cellIndex lb + 1)) with (S (N.to_nat (cellIndex lb))) by lia.
      do 2 f_equal; lia.
Qed.

Lemma AppendWithStyle_one_rendered (lb : LineBuilder) (cmp : ThemeComponentId)
    (r : rune) (rs : list RenderedCodePoint) :
  Determine r (column lb) (config lb) = Ok rs ->
  AppendStyled lb cmp [r] = appendRendered lb cmp rs.
Proof.
  intros Hrs. simpl. rewrite Hrs. cbn [bind].
  now destruct (appendRendered lb cmp rs).
Qed.

(** A code point that is not printable, other than a tab, met at or after
    the start column within the line: each code point of its placeholder
    string (of the code point itself, if it is no control character) is
    written to a cell of its own and counted as one column, and what does
    not fit in the line is dropped. *)
Theorem AppendWithStyle_nonprintable (lb : LineBuilder) (cmp : ThemeComponentId)
    (r : rune) :
  IsPrint r = false ->
  r <> 9%Z ->
  N.of_nat (length (cells (line lb))) < uintModulus ->
  cellIndex lb <= N.of_nat (length (cells (line lb))) ->
  startColumn lb <= column lb ->
  column lb + N.of_nat (length (shownFor r)) < uintModulus ->
  let shown := take (length (cells (line lb)) - N.to_nat (cellIndex lb)) (shownFor r) in
  AppendStyled lb cmp [r]
  = Ok (mkLineBuilder
          (mkLine (writePlain cmp (N.to_nat (cellIndex lb)) shown (cells (line lb))))
          (cellIndex lb + N.of_nat (length shown))
          (column lb + N.of_nat (length shown))
          (startColumn lb) (config lb)).
Proof.
  intros Hnp Htab Hlen Hin Hcol Hwrap shown.
  rewrite (AppendWithStyle_one_rendered lb cmp r
             (map (mkRenderedCodePoint 1) (shownFor r))).
  - now apply appendRendered_ones.
  - unfold DetermineRenderedCodePoint, shownFor. rewrite Hnp. simpl.
    replace (r =? 9)%Z with false by (symmetry; now apply Z.eqb_neq).
    now destruct (negb (r =? 10)%Z && ((r <? 32)%Z || (r =? 127)%Z)).
Qed.

(** A tab met at or after the start column within the line fills the cells
    from the cell index on with spaces up to the next tab stop, or up to the
    end of the line if that comes first. *)
Theorem AppendWithStyle_tab (lb : LineBuilder) (cmp : ThemeComponentId) :
  IsPrint 9%Z = false ->
  uintOfInt (GetInt_CV_TAB_WIDTH (config lb)) <> 0 ->
  N.of_nat (length (cells (line lb))) < uintModulus ->
  cellIndex lb <= N.of_nat (length (cells (line lb))) ->
  startColumn lb <= column lb ->
  1 <= column lb ->
  column lb + uintOfInt (GetInt_CV_TAB_WIDTH (config lb)) < uintModulus ->
  exists w,
    1 <= w <= uintOfInt (GetInt_CV_TAB_WIDTH (config lb))
    /\ (column lb - 1 + w) mod uintOfInt (GetInt_CV_TAB_WIDTH (config lb)) = 0
    /\ let shown := take (length (cells (line lb)) - N.to_nat (cellIndex lb))
                      (repeat 32%Z (N.to_nat w)) in
       AppendStyled lb cmp [9%Z]
       = Ok (mkLineBuilder
               (mkLine (writePlain cmp (N.to_nat (cellIndex lb)) shown (cells (line lb))))
               (cellIndex lb + N.of_nat (length shown))
               (column lb + N.of_nat (length shown))
               (startColumn lb) (config lb)).
Proof.
  intros Hnp Htab Hlen Hin Hcol Hone Hwrap.
  destruct (DetermineRenderedCodePoint_tab (column lb) (config lb) Hnp Htab)
    as (w & Hrun & Hw & Hstop); [lia|].
  exists w. split; [exact Hw|]. split; [exact Hstop|]. intros shown.
  etransitivity; [apply AppendWithStyle_one_rendered; exact Hrun|].
  replace (repeat (mkRenderedCodePoint 1 32%Z) (N.to_nat w))
    with (map (mkRenderedCodePoint 1) (repeat 32%Z (N.to_nat w)))
    by (now rewrite map_repeat).
  apply appendRendered_ones; try assumption.
  rewrite repeat_length. lia.
Qed.

End Text.

Lemma samplePlain (r : rune) :
  (32 <= r < 127)%Z -> plainRune sampleIsPrint sampleRuneWidth r.
Proof.
  intros Hr. unfold plainRune, sampleIsPrint, sampleRuneWidth.
  replace (32 <=? r)%Z with true by (symmetry; apply Z.leb_le; lia).
  replace (r <? 127)%Z with true by (symmetry; apply Z.ltb_lt; lia).
  replace (r =? 0x4E16)%Z with false by (symmetry; apply Z.eqb_neq; lia).
  replace (r =? 0x301)%Z with false by (symmetry; apply Z.eqb_neq; lia).
  split; reflexivity.
Qed.

(** The combining accent U+0301 after the [x] of the sample line. *)
Lemma AppendWithStyle_zero_width_witness :
  AppendWithStyle sampleIsPrint sampleRuneWidth sampleNonPrintable
    (mkLineBuilder sampleLine 1 2 1 sampleConfig) 7%Z [0x301%Z]
  = Ok (mkLineBuilder
          (mkLine [mkCell [120%Z; 0x301%Z] (mkCellStyle 0%Z 0 0);
                   mkCell [121%Z] (mkCellStyle 0%Z 0 0)])
          1 2 1 sampleConfig).
Proof.
  destruct (AppendWithStyle_zero_width sampleIsPrint sampleRuneWidth
              sampleNonPrintable (mkLineBuilder sampleLine 1 2 1 sampleConfig) 7%Z
              0x301%Z eq_refl eq_refl) as [_ Hjoin].
  apply (Hjoin (mkCell [120%Z] (mkCellStyle 0%Z 0 0))); [|reflexivity].
  vm_compute. split; [reflexivity|discriminate].
Defined.

(** The sample line is full at cell index two. *)
Lemma AppendWithStyle_full_line_witness :
  AppendWithStyle sampleIsPrint sampleRuneWidth sampleNonPrintable
    (mkLineBuilder sampleLine 2 3 1 sampleConfig) 7%Z [97%Z; 9%Z; 0x4E16%Z; 7%Z]
  = Ok (mkLineBuilder sampleLine 2 3 1 sampleConfig).
Proof.
  apply (AppendWithStyle_full_line sampleIsPrint sampleRuneWidth sampleNonPrintable).
  - vm_compute. discriminate.
  - vm_compute. discriminate.
  - repeat constructor; vm_compute; discriminate.
Defined.

(** [abc] on the sample line of two cells: [c] is dropped. *)
Lemma AppendWithStyle_plain_truncates_witness :
  AppendWithStyle sampleIsPrint sampleRuneWidth sampleNonPrintable
    (NewLineBuilder sampleLine sampleConfig 1) 7%Z [97%Z; 98%Z; 99%Z]
  = Ok (mkLineBuilder
          (mkLine [mkCell [97%Z] (mkCellStyle 7%Z 0 0);
                   mkCell [98%Z] (mkCellStyle 7%Z 0 0)])
          2 3 1 sampleConfig)
  /\ AppendWithStyle sampleIsPrint sampleRuneWidth sampleNonPrintable
       (NewLineBuilder sampleLine sampleConfig 1) 7%Z [97%Z; 98%Z; 99%Z]
     = AppendWithStyle sampleIsPrint sampleRuneWidth sampleNonPrintable
         (NewLineBuilder sampleLine sampleConfig 1) 7%Z [97%Z; 98%Z].
Proof.
  destruct (AppendWithStyle_plain_truncates sampleIsPrint sampleRuneWidth
              sampleNonPrintable (NewLineBuilder sampleLine sampleConfig 1) 7%Z
              [97%Z; 98%Z; 99%Z]) as (lb' & Hrun & Hshown & _).
  - repeat constructor; apply samplePlain; lia.
  - reflexivity.
  - vm_compute. discriminate.
  - vm_compute. discriminate.
  - reflexivity.
  - split.
    + rewrite Hrun. vm_compute in Hrun. injection Hrun as <-. reflexivity.
    + rewrite Hrun. symmetry. exact Hshown.
Defined.

(** With tab stops every eight columns, a tab met at column eleven is
    rendered as the spaces that lead to column seventeen. *)
Lemma tab_reaches_next_tab_stop_witness :
  exists w,
    DetermineRenderedCodePoint sampleIsPrint sampleRuneWidth sampleNonPrintable
      9%Z 11 sampleConfig
    = Ok (repeat (mkRenderedCodePoint 1 32%Z) (N.to_nat w))
    /\ 1 <= w <= 8
    /\ (11 - 1 + w) mod 8 = 0.
Proof.
  apply (proj2 (tab_reaches_next_tab_stop sampleIsPrint sampleRuneWidth
                  sampleNonPrintable 11 sampleConfig eq_refl)).
  - vm_compute. discriminate.
  - split; [vm_compute; discriminate|reflexivity].
Defined.

(** The bell character on the sample line: a caret and [G]. *)
Lemma AppendWithStyle_nonprintable_witness :
  AppendWithStyle sampleIsPrint sampleRuneWidth sampleNonPrintable
    (NewLineBuilder sampleLine sampleConfig 1) 7%Z [7%Z]
  = Ok (mkLineBuilder
          (mkLine [mkCell [94%Z] (mkCellStyle 7%Z 0 0);
                   mkCell [71%Z] (mkCellStyle 7%Z 0 0)])
          2 3 1 sampleConfig).
Proof.
  apply (AppendWithStyle_nonprintable sampleIsPrint sampleRuneWidth
           sampleNonPrintable (NewLineBuilder sampleLine sampleConfig 1) 7%Z 7%Z).
  - reflexivity.
  - discriminate.
  - reflexivity.
  - vm_compute. discriminate.
  - vm_compute. discriminate.
  - reflexivity.
Defined.

(** A tab at column one of the sample line of two cells: both cells are
    filled with spaces. *)
Lemma AppendWithStyle_tab_witness :
  exists w,
    1 <= w <= 8
    /\ (1 - 1 + w) mod 8 = 0
    /\ AppendWithStyle sampleIsPrint sampleRuneWidth sampleNonPrintable
         (NewLineBuilder sampleLine sampleConfig 1) 7%Z [9%Z]
       = Ok (mkLineBuilder
               (mkLine (writePlain 7%Z 0 (take 2 (repeat 32%Z (N.to_nat w)))
                          (cells sampleLine)))
               (0 + N.of_nat (length (take 2 (repeat 32%Z (N.to_nat w)))))
               (1 + N.of_nat (length (take 2 (repeat 32%Z (N.to_nat w)))))
               1 sampleConfig).
Proof.
  apply (AppendWithStyle_tab sampleIsPrint sampleRuneWidth sampleNonPrintable
           (NewLineBuilder sampleLine sampleConfig 1) 7%Z).
  - reflexivity.
  - vm_compute. discriminate.
  - reflexivity.
  - vm_compute. discriminate.
  - vm_compute. discriminate.
  - vm_compute. discriminate.
  - reflexivity.
Defined.

End LineWriterProps.

(* ===================================================================== *)
(** ** Further properties of windows *)
(* ===================================================================== *)

Module GridProps.

Import Window WindowProps LineWriterProps.
Local Open Scope N_scope.

(** *** Rows written in place *)

Lemma sameFrame_refl (win : Window) : sameFrame win win.
Proof. unfold sameFrame. auto 10. Qed.

Lemma sameFrame_trans (w1 w2 w3 : Window) :
  sameFrame w1 w2 -> sameFrame w2 w3 -> sameFrame w1 w3.
Proof. unfold sameFrame. intuition congruence. Qed.

Lemma onlyRowChanged_refl (r : nat) (win : Window) : onlyRowChanged r win win.
Proof.
  unfold onlyRowChanged. split_and!; auto using sameFrame_refl.
  intros l l' H1 H2. congruence.
Qed.

Lemma storeLine_onlyRowChanged (win : Window) (rowIndex : N) (l l' : Line) :
  lines win !! N.to_nat rowIndex = Some l ->
  length (cells l') = length (cells l) ->
  onlyRowChanged (N.to_nat rowIndex) win (storeLine win rowIndex l').
Proof.
  intros Hl Hlen. unfold onlyRowChanged, storeLine, withLines. simpl.
  split_and!.
  - unfold sameFrame. simpl. auto 10.
  - apply length_insert.
  - intros i Hi. apply list_lookup_insert_ne. lia.
  - intros l0 l0' H0 H0'.
    rewrite list_lookup_insert_eq in H0' by (eapply lookup_lt_Some; exact Hl).
    congruence.
Qed.

Lemma onlyRowChanged_wf (r : nat) (win win' : Window) :
  wfWindow win -> onlyRowChanged r win win' -> wfWindow win'.
Proof.
  intros (Hlen & Hcells & Hr & Hc) ((Hrows & Hcols & _) & Hlen' & Hother & Hrow).
  unfold wfWindow. rewrite Hrows, Hcols. split_and!; try assumption; [lia|].
  rewrite Forall_forall in Hcells. apply Forall_forall. intros l' Hl'.
  apply list_elem_of_lookup in Hl' as [i Hi].
  destruct (decide (i = r)) as [->|Hne].
  - destruct (lookup_lt_is_Some_2 (lines win) r) as [l Hl];
      [rewrite <- Hlen'; eapply lookup_lt_Some; exact Hi|].
    rewrite (Hrow l l' Hl Hi). apply Hcells.
    eapply list_elem_of_lookup_2. exact Hl.
  - rewrite Hother in Hi by exact Hne. apply Hcells.
    eapply list_elem_of_lookup_2. exact Hi.
Qed.

Section Rows.

Variable IsPrint : rune -> bool.
Variable RuneWidth : rune -> Z.
Variable nonPrintableCharString : rune -> list rune.
Variable CMP_NONE : ThemeComponentId.
Variables A_REVERSE A_DIM : Char.

Local Abbreviation AppendStyled :=
  (AppendWithStyle IsPrint RuneWidth nonPrintableCharString).
Local Abbreviation plainRune := (Window.plainRune IsPrint RuneWidth).
Local Abbreviation SetRow' := (SetRow IsPrint RuneWidth nonPrintableCharString).
Local Abbreviation SetTitle' := (SetTitle IsPrint RuneWidth nonPrintableCharString).
Local Abbreviation SetFooter' := (SetFooter IsPrint RuneWidth nonPrintableCharString).
Local Abbreviation setHeader' := (setHeader IsPrint RuneWidth nonPrintableCharString).
Local Abbreviation SetSelectedRow' := (SetSelectedRow CMP_NONE A_REVERSE A_DIM).

Lemma setHeader_onlyRowChanged (win : Window) (rowIndex : N) (rightJustified : bool)
    (cmp : ThemeComponentId) (text : list rune) :
  wfWindow win ->
  uintOfInt (GetInt_CV_TAB_WIDTH (winConfig win)) <> 0 ->
  exists win' e,
    setHeader' win rowIndex rightJustified cmp text = Ok (win', e)
    /\ onlyRowChanged (N.to_nat rowIndex) win win'.
Proof.
  intros Hwf Htab. unfold setHeader, Window_LineBuilder.
  destruct ((rows win <? 3) || (cols win <? 3));
    [eauto using onlyRowChanged_refl|].
  destruct (rows win <=? rowIndex) eqn:Hrow; cbn [bind];
    [eauto using onlyRowChanged_refl|].
  apply N.leb_gt in Hrow. change (1 =? 0) with false. cbv iota.
  destruct (lineAt_in_range win rowIndex Hwf Hrow) as (l & Hl & -> & _).
  cbn [bind]. cbv zeta.
  destruct (rightJustified && (uadd (cols win) 2 <? uintOfLen (length (paddedHeader text))));
    [eauto using onlyRowChanged_refl|].
  match goal with
  | |- context [AppendWithStyle _ _ _ ?lb0 _ _] =>
      destruct (AppendWithStyle_total IsPrint RuneWidth nonPrintableCharString cmp
                  (paddedHeader text) lb0 Htab) as (lb' & Hrun & _);
      pose proof (AppendWithStyle_step _ _ _ _ _ _ _ Hrun) as (Hlen & _)
  end.
  rewrite Hrun. cbn [bind]. eexists _, _. split; [reflexivity|].
  eapply storeLine_onlyRowChanged; [exact Hl|exact Hlen].
Qed.

(** The drawing operations on one row never reshape the window: on a
    well-formed window and with a tab width that is not zero, [SetRow],
    [SetTitle], [SetFooter] and [SetSelectedRow] return a window that is
    well formed again, with the same dimensions, position and cursor, in
    which every row but the addressed one is as it was. *)
Theorem row_operations_keep_the_grid (win : Window) (rowIndex startColumn : N)
    (active : bool) (cmp : ThemeComponentId) (str : list rune) :
  wfWindow win ->
  uintOfInt (GetInt_CV_TAB_WIDTH (winConfig win)) <> 0 ->
  (exists win' e, SetRow' win rowIndex startColumn cmp str = Ok (win', e)
                  /\ onlyRowChanged (N.to_nat rowIndex) win win' /\ wfWindow win')
  /\ (exists win' e, SetTitle' win cmp str = Ok (win', e)
                     /\ onlyRowChanged 0 win win' /\ wfWindow win')
  /\ (exists win' e, SetFooter' win cmp str = Ok (win', e)
                     /\ onlyRowChanged (N.to_nat (rows win - 1)) win win'
                     /\ wfWindow win')
  /\ (exists win' e, SetSelectedRow' win rowIndex active = Ok (win', e)
                     /\ onlyRowChanged (N.to_nat rowIndex) win win' /\ wfWindow win').
Proof.
  intros Hwf Htab.
  assert (Hwrap : forall r (run : result (Window * option error)),
             (exists win' e, run = Ok (win', e) /\ onlyRowChanged r win win') ->
             exists win' e, run = Ok (win', e) /\ onlyRowChanged r win win'
                            /\ wfWindow win').
  { intros r run (win' & e & Hrun & Hrow). exists win', e.
    eauto using onlyRowChanged_wf. }
  split_and!; apply Hwrap.
  - unfold SetRow, Window_LineBuilder.
    destruct (rows win <=? rowIndex) eqn:Hrow; simpl;
      [eauto using onlyRowChanged_refl|].
    destruct (startColumn =? 0); simpl; [eauto using onlyRowChanged_refl|].
    apply N.leb_gt in Hrow.
    destruct (lineAt_in_range win rowIndex Hwf Hrow) as (l & Hl & -> & _). simpl.
    destruct (AppendWithStyle_total IsPrint RuneWidth nonPrintableCharString cmp
                str (NewLineBuilder l (winConfig win) startColumn) Htab)
      as (lb' & Hrun & _).
    pose proof (AppendWithStyle_step _ _ _ _ _ _ _ Hrun) as (Hlen & _).
    rewrite Hrun. simpl. eexists _, _. split; [reflexivity|].
    eapply storeLine_onlyRowChanged; [exact Hl|exact Hlen].
  - apply (setHeader_onlyRowChanged win 0 false cmp str Hwf Htab).
  - unfold SetFooter. destruct (rows win <? 1) eqn:Hnone;
      [eauto using onlyRowChanged_refl|].
    apply N.ltb_ge in Hnone. pose proof Hwf as (_ & _ & Hmax & _).
    replace (rows win - 1) with (usub (rows win) 1).
    + apply (setHeader_onlyRowChanged win _ true cmp str Hwf Htab).
    + apply usub_small; [lia|]. change uintModulus with (2 ^ 64).
      eapply N.lt_trans; [exact Hmax|reflexivity].
  - unfold SetSelectedRow.
    destruct (rows win <=? rowIndex) eqn:Hrow;
      [eauto using onlyRowChanged_refl|].
    apply N.leb_gt in Hrow.
    destruct (lineAt_in_range win rowIndex Hwf Hrow) as (l & Hl & -> & _). simpl.
    eexists _, _. split; [reflexivity|].
    eapply storeLine_onlyRowChanged; [exact Hl|]. simpl. apply length_map.
Qed.

(** [SetRow] scrolls horizontally: of a text of printable code points of
    width one it shows, from the first cell of the row on, the code points
    from the one at column [startColumn] (counted from one) onwards, as many
    as the row has cells; the cells after the shown text keep what they
    held. *)
Theorem SetRow_shows_text_from_start_column (win : Window) (rowIndex startColumn : N)
    (cmp : ThemeComponentId) (str : list rune) (l : Line) :
  wfWindow win ->
  rowIndex < rows win ->
  1 <= startColumn ->
  startColumn + N.of_nat (length str) < uintModulus ->
  Forall plainRune str ->
  lines win !! N.to_nat rowIndex = Some l ->
  SetRow' win rowIndex startColumn cmp str
  = Ok (storeLine win rowIndex
          (mkLine (writePlain cmp 0
                     (take (N.to_nat (cols win)) (drop (N.to_nat (startColumn - 1)) str))
                     (cells l))),
        None).
Proof.
  intros Hwf Hrow Hstart Hwrap Hplain Hl.
  destruct (lineAt_in_range win rowIndex Hwf Hrow) as (l0 & Hl0 & Hat & Hlen).
  assert (l0 = l) as -> by congruence.
  pose proof Hwf as (_ & _ & _ & Hcmax).
  unfold SetRow, Window_LineBuilder.
  replace (rows win <=? rowIndex) with false by (symmetry; apply N.leb_gt; lia).
  replace (startColumn =? 0) with false by (symmetry; apply N.eqb_neq; lia).
  rewrite Hat. cbn [bind].
  destruct (AppendWithStyle_plain_scrolled IsPrint RuneWidth nonPrintableCharString
              (NewLineBuilder l (winConfig win) startColumn) cmp str)
    as (lb' & Hrun & Hcells & _); cbn [NewLineBuilder line cellIndex column Window.startColumn];
    try assumption; try lia.
  - rewrite Hlen. change uintModulus with (2 ^ 64).
    assert (Hpow : (2 ^ 63 : N) < 2 ^ 64) by reflexivity. lia.
  - rewrite Hrun. cbn [bind]. do 3 f_equal.
    destruct (line lb') as [cs]. simpl in Hcells. rewrite Hcells.
    cbn [NewLineBuilder line cellIndex column Window.startColumn].
    rewrite Hlen. do 3 f_equal. lia.
Qed.

(** [SetTitle] writes the padded title from the third cell of the top row
    on and cuts it at the end of the row; the first two cells are left as
    they were. *)
Theorem SetTitle_starts_at_third_cell (win : Window) (cmp : ThemeComponentId)
    (text : list rune) (l : Line) :
  wfWindow win ->
  3 <= rows win -> 3 <= cols win ->
  N.of_nat (length (paddedHeader text)) < 2 ^ 63 ->
  Forall plainRune (paddedHeader text) ->
  lines win !! 0%nat = Some l ->
  SetTitle' win cmp text
  = Ok (storeLine win 0
          (mkLine (writePlain cmp 2
                     (take (N.to_nat (cols win) - 2) (paddedHeader text)) (cells l))),
        None).
Proof.
  intros Hwf Hrows Hcols Htext Hplain Hl.
  destruct (lineAt_in_range win 0 Hwf) as (l0 & Hl0 & Hat & Hlen); [lia|].
  change (N.to_nat 0) with 0%nat in Hl0.
  assert (l0 = l) as -> by congruence.
  pose proof Hwf as (_ & _ & _ & Hcmax).
  assert (Hpow : (2 ^ 63 : N) < 2 ^ 64) by reflexivity.
  unfold SetTitle, setHeader, Window_LineBuilder.
  replace (rows win <? 3) with false by (symmetry; apply N.ltb_ge; lia).
  replace (cols win <? 3) with false by (symmetry; apply N.ltb_ge; lia).
  replace (rows win <=? 0) with false by (symmetry; apply N.leb_gt; lia).
  cbn [orb]. change (1 =? 0) with false. cbv iota.
  rewrite Hat. cbn [bind andb]. cbv zeta. cbv iota.
  change (uadd (cellIndex (withCellIndex (NewLineBuilder l (winConfig win) 1) 2)) 1)
    with 3.
  rewrite AppendWithStyle_plain_cut;
    unfold withColumn, withCellIndex;
    cbn [NewLineBuilder line cells cellIndex column startColumn]; try assumption.
  - cbn [bind line]. rewrite Hlen. reflexivity.
  - rewrite Hlen. change uintModulus with (2 ^ 64). lia.
  - rewrite Hlen. lia.
  - lia.
  - change uintModulus with (2 ^ 64). lia.
Qed.

End Rows.

Lemma row_operations_keep_the_grid_witness :
  exists win' e,
    SetRow sampleIsPrint sampleRuneWidth sampleNonPrintable sampleWindow 1 2 7%Z
      [97%Z; 9%Z; 0x4E16%Z]
    = Ok (win', e)
    /\ wfWindow win'
    /\ lines win' !! 0%nat = lines sampleWindow !! 0%nat.
Proof.
  destruct (row_operations_keep_the_grid sampleIsPrint sampleRuneWidth
              sampleNonPrintable 0%Z 1 2 sampleWindow 1 2 true 7%Z
              [97%Z; 9%Z; 0x4E16%Z] sampleWindow_wf sampleConfig_tab_width)
    as ((win' & e & Hrun & (_ & _ & Hother & _) & Hwf) & _).
  exists win', e. split; [exact Hrun|]. split; [exact Hwf|].
  apply Hother. discriminate.
Defined.

(** [hello] shown from column three on the row of five cells: [llo]. *)
Lemma SetRow_shows_text_from_start_column_witness :
  SetRow sampleIsPrint sampleRuneWidth sampleNonPrintable sampleWindow 1 3 7%Z
    [104%Z; 101%Z; 108%Z; 108%Z; 111%Z]
  = Ok (storeLine sampleWindow 1
          (mkLine [mkCell [108%Z] (mkCellStyle 7%Z 0 0);
                   mkCell [108%Z] (mkCellStyle 7%Z 0 0);
                   mkCell [111%Z] (mkCellStyle 7%Z 0 0);
                   zeroCell; zeroCell]),
        None).
Proof.
  apply (SetRow_shows_text_from_start_column sampleIsPrint sampleRuneWidth
           sampleNonPrintable sampleWindow 1 3 7%Z
           [104%Z; 101%Z; 108%Z; 108%Z; 111%Z] (NewLine 5) sampleWindow_wf).
  - reflexivity.
  - vm_compute. discriminate.
  - reflexivity.
  - repeat constructor; apply samplePlain; lia.
  - reflexivity.
Defined.

(** The title [ab] on the window of five columns: of the four code points
    of the padded title the last is cut. *)
Lemma SetTitle_starts_at_third_cell_witness :
  SetTitle sampleIsPrint sampleRuneWidth sampleNonPrintable sampleWindow 7%Z
    [97%Z; 98%Z]
  = Ok (storeLine sampleWindow 0
          (mkLine [zeroCell; zeroCell;
                   mkCell [32%Z] (mkCellStyle 7%Z 0 0);
                   mkCell [97%Z] (mkCellStyle 7%Z 0 0);
                   mkCell [98%Z] (mkCellStyle 7%Z 0 0)]),
        None).
Proof.
  apply (SetTitle_starts_at_third_cell sampleIsPrint sampleRuneWidth
           sampleNonPrintable sampleWindow 7%Z [97%Z; 98%Z] (NewLine 5)
           sampleWindow_wf).
  - vm_compute. discriminate.
  - vm_compute. discriminate.
  - reflexivity.
  - repeat constructor; apply samplePlain; lia.
  - reflexivity.
Defined.

(** *** Clearing, selecting and restyling *)

Lemma map_const_repeat {A B : Type} (b : B) (l : list A) :
  map (fun _ => b) l = repeat b (length l).
Proof. induction l as [|a l IH]; simpl; [reflexivity|now rewrite IH]. Qed.

Lemma cellOf_storeLine (win : Window) (rowIndex : N) (l' : Line) (i j : nat) :
  (N.to_nat rowIndex < length (lines win))%nat ->
  cellOf (storeLine win rowIndex l') i j
  = if decide (i = N.to_nat rowIndex) then cells l' !! j else cellOf win i j.
Proof.
  intros Hin. unfold cellOf, storeLine, withLines. simpl.
  destruct (decide (i = N.to_nat rowIndex)) as [->|Hne].
  - now rewrite list_lookup_insert_eq.
  - now rewrite list_lookup_insert_ne by lia.
Qed.

Section Styles.

Variable CMP_NONE : ThemeComponentId.
Variables A_NORMAL A_REVERSE A_DIM : Char.

Local Abbreviation Clear' := (Window_Clear CMP_NONE A_NORMAL).
Local Abbreviation cleared := (clearedCell CMP_NONE A_NORMAL).
Local Abbreviation SetSelectedRow' := (SetSelectedRow CMP_NONE A_REVERSE A_DIM).

(** After [Clear] the grid of a well-formed window is exactly its [rows]
    lines of [cols] cells, each holding one space with the default
    component, the normal attribute and no glyph override; the cursor is
    unset, even one just set by [SetCursor]; the dimensions are kept and the
    window is well formed again. *)
Theorem Window_Clear_blanks_the_grid (win : Window) (rowIndex colIndex : N) :
  wfWindow win ->
  lines (Clear' win)
  = repeat (mkLine (repeat cleared (N.to_nat (cols win)))) (N.to_nat (rows win))
  /\ IsCursorSet (Clear' win) = false
  /\ IsCursorSet (Clear' (fst (SetCursor win rowIndex colIndex))) = false
  /\ rows (Clear' win) = rows win
  /\ cols (Clear' win) = cols win
  /\ wfWindow (Clear' win).
Proof.
  intros (Hlen & Hcells & Hr & Hc).
  assert (Hgrid : lines (Clear' win)
                  = repeat (mkLine (repeat cleared (N.to_nat (cols win))))
                      (N.to_nat (rows win))).
  { unfold Window_Clear. simpl. rewrite <- Hlen. clear Hlen.
    induction Hcells as [|l ls Hl _ IH]; simpl; [reflexivity|].
    now rewrite IH, map_const_repeat, Hl. }
  split_and!; try reflexivity; try exact Hgrid.
  unfold wfWindow. rewrite Hgrid. simpl. split_and!; try assumption.
  - apply repeat_length.
  - apply Forall_forall. intros l Hl.
    apply list_elem_of_In, repeat_spec in Hl. subst l. apply repeat_length.
Qed.

(** The attribute that [SetSelectedRow] adds for a value of [active]. *)
Lemma selection_attributes_accumulate (x : Char) (b1 b2 : bool) :
  N.lor (N.lor x (if negb b1 then N.lor A_REVERSE A_DIM else A_REVERSE))
        (if negb b2 then N.lor A_REVERSE A_DIM else A_REVERSE)
  = N.lor x (if negb (b1 && b2) then N.lor A_REVERSE A_DIM else A_REVERSE).
Proof.
  rewrite <- N.lor_assoc. f_equal.
  destruct b1, b2; simpl.
  - apply N.lor_diag.
  - now rewrite N.lor_assoc, N.lor_diag.
  - now rewrite (N.lor_comm (N.lor A_REVERSE A_DIM)), N.lor_assoc, N.lor_diag.
  - apply N.lor_diag.
Qed.

Lemma SetSelectedRow_on_row (win : Window) (rowIndex : N) (active : bool) (l : Line) :
  rowIndex < rows win ->
  lines win !! N.to_nat rowIndex = Some l ->
  SetSelectedRow' win rowIndex active
  = Ok (storeLine win rowIndex
          (mkLine (map (selectCell CMP_NONE
                          (if negb active then N.lor A_REVERSE A_DIM else A_REVERSE))
                     (cells l))),
        None).
Proof.
  intros Hrow Hl. unfold SetSelectedRow, lineAt.
  replace (rows win <=? rowIndex) with false by (symmetry; now apply N.leb_gt).
  now rewrite Hl.
Qed.

Lemma storeLine_storeLine (win : Window) (rowIndex : N) (l1 l2 : Line) :
  storeLine (storeLine win rowIndex l1) rowIndex l2 = storeLine win rowIndex l2.
Proof.
  unfold storeLine, withLines. simpl. now rewrite list_insert_insert_eq.
Qed.

(** Selections accumulate: [SetSelectedRow] on a row already selected gives
    what a single call with the conjunction of the two [active] flags
    gives.  So the call is idempotent, and a row once selected as inactive
    stays dimmed when it is selected as active afterwards.  Each call keeps
    the code points and the glyph override of every cell of the row, sets
    its component to the default and adds the attributes to those the cell
    has. *)
Theorem SetSelectedRow_accumulates (win : Window) (rowIndex : N)
    (active1 active2 : bool) :
  wfWindow win ->
  rowIndex < rows win ->
  exists win1 win2,
    SetSelectedRow' win rowIndex active1 = Ok (win1, None)
    /\ SetSelectedRow' win1 rowIndex active2 = Ok (win2, None)
    /\ SetSelectedRow' win rowIndex (active1 && active2) = Ok (win2, None)
    /\ (forall j c, cellOf win (N.to_nat rowIndex) j = Some c ->
          cellOf win1 (N.to_nat rowIndex) j
          = Some (mkCell (codePoints c)
                    (mkCellStyle CMP_NONE
                       (N.lor (attr (style c))
                          (if negb active1 then N.lor A_REVERSE A_DIM else A_REVERSE))
                       (acs_char (style c))))).
Proof.
  intros Hwf Hrow.
  destruct (lineAt_in_range win rowIndex Hwf Hrow) as (l & Hl & _ & _).
  pose proof (lookup_lt_Some _ _ _ Hl) as Hin.
  set (a1 := if negb active1 then N.lor A_REVERSE A_DIM else A_REVERSE).
  set (l1 := mkLine (map (selectCell CMP_NONE a1) (cells l))).
  assert (Hl1 : lines (storeLine win rowIndex l1) !! N.to_nat rowIndex = Some l1).
  { unfold storeLine, withLines. simpl. now apply list_lookup_insert_eq. }
  eexists _, _. split_and!.
  - apply (SetSelectedRow_on_row win rowIndex active1 l Hrow Hl).
  - apply (SetSelectedRow_on_row _ rowIndex active2 l1); [exact Hrow|exact Hl1].
  - rewrite (SetSelectedRow_on_row win rowIndex (active1 && active2) l Hrow Hl).
    rewrite storeLine_storeLine. do 4 f_equal.
    unfold l1. simpl. rewrite map_map. apply map_ext. intros c.
    unfold selectCell, a1. simpl.
    now rewrite selection_attributes_accumulate.
  - intros j c Hc. rewrite cellOf_storeLine by exact Hin.
    destruct (decide (N.to_nat rowIndex = N.to_nat rowIndex)); [|congruence].
    unfold cellOf in Hc. rewrite Hl in Hc. unfold l1. cbn [cells].
    change (map (selectCell CMP_NONE a1) (cells l))
      with (selectCell CMP_NONE a1 <$> cells l).
    now rewrite list_lookup_fmap, Hc.
Qed.

(** [ApplyStyle] sets the component of every cell and nothing else: code
    points, attributes, glyph overrides, dimensions, position and cursor are
    kept, a well-formed window stays well formed, and of two restyles in a
    row only the last one shows. *)
Theorem ApplyStyle_last_one_shows (win : Window) (cmp1 cmp2 : ThemeComponentId) :
  ApplyStyle (ApplyStyle win cmp1) cmp2 = ApplyStyle win cmp2
  /\ sameFrame win (ApplyStyle win cmp1)
  /\ (wfWindow win -> wfWindow (ApplyStyle win cmp1))
  /\ (forall i j c, cellOf win i j = Some c ->
        cellOf (ApplyStyle win cmp1) i j
        = Some (mkCell (codePoints c)
                  (mkCellStyle cmp1 (attr (style c)) (acs_char (style c))))).
Proof.
  split_and!.
  - unfold ApplyStyle, withLines. simpl. f_equal.
    rewrite map_map. apply map_ext. intros l. simpl. f_equal.
    rewrite map_map. apply map_ext. intros c. reflexivity.
  - unfold sameFrame. simpl. auto 10.
  - intros (Hlen & Hcells & Hr & Hc). unfold wfWindow, ApplyStyle. simpl.
    split_and!; try assumption.
    + now rewrite length_map.
    + apply Forall_forall. intros l Hl.
      apply list_elem_of_In, in_map_iff in Hl as (l0 & <- & Hl0). simpl.
      rewrite length_map. rewrite Forall_forall in Hcells.
      apply Hcells. now apply list_elem_of_In.
  - intros i j c Hc. unfold cellOf, ApplyStyle in *. simpl.
    change (map ?f (lines win)) with (f <$> lines win).
    rewrite list_lookup_fmap.
    destruct (lines win !! i) as [l|]; [|discriminate]. simpl.
    change (map ?f (cells l)) with (f <$> cells l).
    now rewrite list_lookup_fmap, Hc.
Qed.

End Styles.

Lemma Window_Clear_blanks_the_grid_witness :
  lines (Window_Clear 0%Z 0 sampleWindow)
  = repeat (mkLine (repeat (mkCell [32%Z] (mkCellStyle 0%Z 0 0)) 5)) 3
  /\ IsCursorSet (Window_Clear 0%Z 0 (fst (SetCursor sampleWindow 1 1))) = false.
Proof.
  destruct (Window_Clear_blanks_the_grid 0%Z 0 sampleWindow 1 1 sampleWindow_wf)
    as (Hgrid & _ & Hcursor & _).
  split; [exact Hgrid|exact Hcursor].
Defined.

(** Inactive, then active: the row stays as the inactive selection left it. *)
Lemma SetSelectedRow_accumulates_witness :
  exists win1,
    SetSelectedRow 0%Z 4 16 sampleWindow 1 false = Ok (win1, None)
    /\ SetSelectedRow 0%Z 4 16 win1 1 true = Ok (win1, None).
Proof.
  destruct (SetSelectedRow_accumulates 0%Z 4 16 sampleWindow 1 false true
              sampleWindow_wf eq_refl) as (win1 & win2 & H1 & H2 & H12 & _).
  exists win1. split; [exact H1|].
  rewrite H2. change (false && true) with false in H12.
  rewrite H1 in H12. exact (eq_sym H12).
Defined.

Lemma ApplyStyle_last_one_shows_witness :
  ApplyStyle (ApplyStyle sampleWindow 3%Z) 9%Z = ApplyStyle sampleWindow 9%Z
  /\ wfWindow (ApplyStyle sampleWindow 3%Z).
Proof.
  destruct (ApplyStyle_last_one_shows sampleWindow 3%Z 9%Z) as (Hlast & _ & Hwf & _).
  split; [exact Hlast|exact (Hwf sampleWindow_wf)].
Defined.

(** *** Dimensions and position *)

(** [Resize] and [ViewDimensions] agree: after [Resize] the window reports
    the requested dimensions; resizing to the reported dimensions, or a
    second time to the same ones, changes nothing; and resizing a
    well-formed window to dimensions below [2^63] gives a well-formed
    window. *)
Theorem Resize_ViewDimensions_round_trip (win : Window) (vd : ViewDimension) :
  ViewDimensions (Resize win vd) = vd
  /\ Resize win (ViewDimensions win) = win
  /\ Resize (Resize win vd) vd = Resize win vd
  /\ (wfWindow win -> vdRows vd < 2 ^ 63 -> vdCols vd < 2 ^ 63 ->
      wfWindow (Resize win vd)).
Proof.
  assert (Hdims : ViewDimensions (Resize win vd) = vd).
  { unfold Resize, ViewDimensions.
    destruct ((rows win =? vdRows vd) && (cols win =? vdCols vd)) eqn:Hsame.
    - apply andb_true_iff in Hsame as [Hr Hc]. apply N.eqb_eq in Hr, Hc.
      rewrite Hr, Hc. now destruct vd.
    - simpl. now destruct vd. }
  split_and!.
  - exact Hdims.
  - unfold Resize, ViewDimensions. simpl. now rewrite !N.eqb_refl.
  - pose proof (f_equal vdRows Hdims) as Hr.
    pose proof (f_equal vdCols Hdims) as Hc.
    unfold ViewDimensions in Hr, Hc. cbn [vdRows vdCols] in Hr, Hc.
    unfold Resize at 1. now rewrite Hr, Hc, !N.eqb_refl.
  - apply Resize_wf.
Qed.

Lemma Resize_ViewDimensions_round_trip_witness :
  ViewDimensions (Resize sampleWindow (mkViewDimension 7 2)) = mkViewDimension 7 2
  /\ wfWindow (Resize sampleWindow (mkViewDimension 7 2)).
Proof.
  destruct (Resize_ViewDimensions_round_trip sampleWindow (mkViewDimension 7 2))
    as (Hdims & _ & _ & Hwf).
  split; [exact Hdims|].
  apply Hwf; [exact sampleWindow_wf|reflexivity|reflexivity].
Defined.

Section Offsets.

Variable Min : N -> N -> N.
Variable Abs : Z -> N.

Local Abbreviation applyOffset' := (applyOffset Min Abs).
Local Abbreviation OffsetPosition' := (OffsetPosition Min Abs).

Lemma applyOffset_is_wrapping_sum (value : N) (offset : Z) :
  applyOffset' value offset = uadd value (uintOfInt offset).
Proof.
  unfold applyOffset.
  replace (value <? 0) with false by (symmetry; apply N.ltb_ge; lia).
  reflexivity.
Qed.

(** [applyOffset] never clamps: its test [value < 0] on an unsigned value
    never holds, so the result is always the sum modulo [2^64].  An offset
    that stays within the range is applied as it is, also when negative; an
    offset below [-value] wraps around to a large position instead of
    stopping at zero; applying an offset and then its opposite gives the
    value back, so that [OffsetPosition] by two offsets and then by their
    opposites restores the window. *)
Theorem applyOffset_wraps_around (win : Window) (value : N)
    (offset rowOffset colOffset : Z) :
  value < uintModulus ->
  startRow win < uintModulus ->
  startCol win < uintModulus ->
  Z.of_N (applyOffset' value offset)
  = ((Z.of_N value + offset) mod Z.of_N uintModulus)%Z
  /\ ((0 <= Z.of_N value + offset < Z.of_N uintModulus)%Z ->
      Z.of_N (applyOffset' value offset) = (Z.of_N value + offset)%Z)
  /\ ((- Z.of_N uintModulus <= Z.of_N value + offset < 0)%Z ->
      Z.of_N (applyOffset' value offset)
      = (Z.of_N value + offset + Z.of_N uintModulus)%Z)
  /\ applyOffset' (applyOffset' value offset) (- offset) = value
  /\ OffsetPosition' (OffsetPosition' win rowOffset colOffset)
       (- rowOffset) (- colOffset) = win.
Proof.
  intros Hvalue Hrow Hcol.
  assert (Hback : forall v d, v < uintModulus ->
                              applyOffset' (applyOffset' v d) (- d) = v).
  { intros v d Hv. rewrite !applyOffset_is_wrapping_sum. uint_lia. }
  split_and!.
  - rewrite applyOffset_is_wrapping_sum. uint_lia.
  - intros Hrange. rewrite applyOffset_is_wrapping_sum. uint_lia.
  - intros Hrange. rewrite applyOffset_is_wrapping_sum. uint_lia.
  - now apply Hback.
  - unfold OffsetPosition. simpl. rewrite !Hback by assumption.
    now destruct win.
Qed.

End Offsets.

Lemma applyOffset_wraps_around_witness :
  applyOffset N.min Z.to_N 5 (-2) = 3
  /\ applyOffset N.min Z.to_N 0 (-1) = 18446744073709551615.
Proof.
  destruct (applyOffset_wraps_around N.min Z.to_N sampleWindow 5 (-2) 0 0
              eq_refl eq_refl eq_refl) as (_ & Hin & _ & _).
  destruct (applyOffset_wraps_around N.min Z.to_N sampleWindow 0 (-1) 0 0
              eq_refl eq_refl eq_refl) as (_ & _ & Hout & _).
  split.
  - apply N2Z.inj. apply Hin. vm_compute. split; [discriminate|reflexivity].
  - apply N2Z.inj. apply Hout. vm_compute. split; [discriminate|reflexivity].
Defined.

(** *** The frame *)

Ltac case_nat_tests :=
  repeat match goal with
    | |- context [Nat.eqb ?a ?b] => destruct (Nat.eqb_spec a b)
    | |- context [Nat.leb ?a ?b] => destruct (Nat.leb_spec a b)
    | |- context [Nat.ltb ?a ?b] => destruct (Nat.ltb_spec a b)
    end;
  simpl; try reflexivity; try lia.

Lemma setAcsChar_twice (g g' : Char) (c : Cell) :
  setAcsChar g (setAcsChar g' c) = setAcsChar g c.
Proof. reflexivity. Qed.

Lemma cellOf_in_range (win : Window) (i j : nat) (c : Cell) :
  wfWindow win -> cellOf win i j = Some c ->
  (i < N.to_nat (rows win))%nat /\ (j < N.to_nat (cols win))%nat.
Proof.
  intros (Hlen & Hcells & _) Hc. unfold cellOf in Hc.
  destruct (lines win !! i) as [l|] eqn:Hl; [|discriminate].
  split.
  - rewrite <- Hlen. eapply lookup_lt_Some. exact Hl.
  - rewrite Forall_forall in Hcells.
    rewrite <- (Hcells l) by (eapply list_elem_of_lookup_2; exact Hl).
    eapply lookup_lt_Some. exact Hc.
Qed.

Lemma paints_refl (win : Window) : paints (fun _ _ => None) win win.
Proof.
  unfold paints. split_and!; auto using sameFrame_refl.
  intros i l l' H1 H2. congruence.
Qed.

Lemma paints_trans (P Q : nat -> nat -> option Char) (w1 w2 w3 : Window) :
  paints P w1 w2 -> paints Q w2 w3 ->
  paints (fun i j => match Q i j with Some g => Some g | None => P i j end) w1 w3.
Proof.
  intros (Hf1 & Hn1 & Hl1 & Hc1) (Hf2 & Hn2 & Hl2 & Hc2).
  unfold paints. split_and!.
  - eauto using sameFrame_trans.
  - congruence.
  - intros i l l' H1 H3.
    destruct (lookup_lt_is_Some_2 (lines w2) i) as [l2 H2];
      [rewrite Hn1; eapply lookup_lt_Some; exact H1|].
    rewrite (Hl2 i l2 l' H2 H3). now apply (Hl1 i).
  - intros i j c Hc. rewrite (Hc2 i j _ (Hc1 i j c Hc)).
    destruct (Q i j); [|reflexivity].
    now destruct (P i j).
Qed.

Lemma paints_ext (P P' : nat -> nat -> option Char) (win win' : Window) :
  (forall i j c, cellOf win i j = Some c -> P i j = P' i j) ->
  paints P win win' -> paints P' win win'.
Proof.
  intros Hext (Hf & Hn & Hl & Hc). unfold paints. split_and!; try assumption.
  intros i j c Hij. rewrite <- (Hext i j c Hij). now apply Hc.
Qed.

Lemma paints_wf (P : nat -> nat -> option Char) (win win' : Window) :
  wfWindow win -> paints P win win' -> wfWindow win'.
Proof.
  intros (Hlen & Hcells & Hr & Hc) ((Hrows & Hcols & _) & Hn & Hl & _).
  unfold wfWindow. rewrite Hrows, Hcols. split_and!; try assumption; [lia|].
  rewrite Forall_forall in Hcells. apply Forall_forall. intros l' Hl'.
  apply list_elem_of_lookup in Hl' as [i Hi].
  destruct (lookup_lt_is_Some_2 (lines win) i) as [l Hli];
    [rewrite <- Hn; eapply lookup_lt_Some; exact Hi|].
  rewrite (Hl i l l' Hli Hi). apply Hcells.
  eapply list_elem_of_lookup_2. exact Hli.
Qed.

Lemma setAcs_paints (win : Window) (r c : N) (g : Char) :
  wfWindow win -> r < rows win -> c < cols win ->
  exists win',
    setAcs r c g win = Ok win'
    /\ paints (fun i j => if Nat.eqb i (N.to_nat r) && Nat.eqb j (N.to_nat c)
                          then Some g else None) win win'.
Proof.
  intros Hwf Hr Hc.
  destruct (lineAt_in_range win r Hwf Hr) as (l & Hl & Hat & Hlen).
  pose proof (lookup_lt_Some _ _ _ Hl) as Hin.
  destruct (updateCell_in_range l c (setAcsChar g)) as (c0 & Hc0 & Hup); [lia|].
  unfold setAcs. rewrite Hat. cbn [bind]. rewrite Hup. cbn [bind].
  eexists. split; [reflexivity|]. unfold paints. split_and!.
  - unfold sameFrame. simpl. auto 10.
  - apply length_insert.
  - intros i l0 l0' H0 H0'. unfold storeLine, withLines in H0'. simpl in H0'.
    destruct (decide (i = N.to_nat r)) as [->|Hne].
    + rewrite list_lookup_insert_eq in H0' by exact Hin.
      injection H0' as <-. simpl. rewrite length_insert. congruence.
    + rewrite list_lookup_insert_ne in H0' by lia. congruence.
  - intros i j c1 Hc1. rewrite cellOf_storeLine by exact Hin.
    unfold cellOf in Hc1.
    destruct (decide (i = N.to_nat r)) as [->|Hne].
    + rewrite Hl in Hc1. rewrite Nat.eqb_refl. simpl.
      destruct (Nat.eqb_spec j (N.to_nat c)) as [->|Hj].
      * rewrite list_lookup_insert_eq by (eapply lookup_lt_Some; exact Hc0).
        congruence.
      * rewrite list_lookup_insert_ne by lia. exact Hc1.
    + replace (Nat.eqb i (N.to_nat r)) with false
        by (symmetry; now apply Nat.eqb_neq).
      simpl. unfold cellOf. exact Hc1.
Qed.

(** The loop that draws a horizontal edge. *)
Lemma hline_loop_paints (r : N) (g : Char) (count : nat) :
  forall (lo : N) (win : Window),
    wfWindow win -> r < rows win ->
    N.of_nat count + lo <= cols win ->
    exists win',
      forLoop count lo (fun i => setAcs r i g) win = Ok win'
      /\ paints (fun i j => if Nat.eqb i (N.to_nat r) && Nat.leb (N.to_nat lo) j
                               && Nat.ltb j (N.to_nat lo + count)
                            then Some g else None) win win'.
Proof.
  induction count as [|count IH]; intros lo win Hwf Hr Hfit.
  - exists win. split; [reflexivity|].
    eapply paints_ext; [|apply paints_refl].
    intros i j c _. case_nat_tests.
  - simpl forLoop.
    destruct (setAcs_paints win r lo g Hwf Hr) as (w1 & -> & Hp1); [lia|].
    cbn [bind].
    pose proof Hp1 as ((Hrows & Hcols & _) & _).
    destruct (IH (lo + 1) w1) as (w2 & -> & Hp2);
      [eapply paints_wf; eassumption|congruence|lia|].
    exists w2. split; [reflexivity|].
    eapply paints_ext; [|eapply paints_trans; eassumption].
    intros i j c _. simpl.
    replace (N.to_nat (lo + 1)) with (S (N.to_nat lo)) by lia.
    case_nat_tests.
Qed.

(** The loop that draws the two vertical edges. *)
Lemma vline_loop_paints (lastCol : N) (g : Char) (count : nat) :
  forall (lo : N) (win : Window),
    wfWindow win -> lastCol < cols win ->
    N.of_nat count + lo <= rows win ->
    exists win',
      forLoop count lo
        (fun i w => do w' <- setAcs i 0 g w; setAcs i lastCol g w') win = Ok win'
      /\ paints (fun i j => if Nat.leb (N.to_nat lo) i && Nat.ltb i (N.to_nat lo + count)
                               && (Nat.eqb j 0 || Nat.eqb j (N.to_nat lastCol))
                            then Some g else None) win win'.
Proof.
  induction count as [|count IH]; intros lo win Hwf Hc Hfit.
  - exists win. split; [reflexivity|].
    eapply paints_ext; [|apply paints_refl].
    intros i j c _. case_nat_tests.
  - simpl forLoop.
    destruct (setAcs_paints win lo 0 g Hwf) as (w1 & -> & Hp1); [lia|lia|].
    cbn [bind].
    pose proof Hp1 as ((Hrows1 & Hcols1 & _) & _).
    pose proof (paints_wf _ _ _ Hwf Hp1) as Hwf1.
    destruct (setAcs_paints w1 lo lastCol g Hwf1) as (w2 & -> & Hp2); [lia|lia|].
    cbn [bind].
    pose proof Hp2 as ((Hrows2 & Hcols2 & _) & _).
    pose proof (paints_wf _ _ _ Hwf1 Hp2) as Hwf2.
    pose proof (paints_trans _ _ _ _ _ Hp1 Hp2) as Hp12.
    destruct (IH (lo + 1) w2) as (w3 & -> & Hp3); [exact Hwf2|lia|lia|].
    exists w3. split; [reflexivity|].
    eapply paints_ext; [|eapply paints_trans; eassumption].
    intros i j c _. simpl.
    replace (N.to_nat (lo + 1)) with (S (N.to_nat lo)) by lia.
    change (N.to_nat 0) with 0%nat.
    case_nat_tests.
Qed.

Section Border.

Variables ACS_ULCORNER ACS_URCORNER ACS_LLCORNER ACS_LRCORNER : Char.
Variables ACS_HLINE ACS_VLINE : Char.

Local Abbreviation DrawBorder' :=
  (DrawBorder ACS_ULCORNER ACS_URCORNER ACS_LLCORNER ACS_LRCORNER ACS_HLINE ACS_VLINE).
Local Abbreviation borderGlyph' :=
  (borderGlyph ACS_ULCORNER ACS_URCORNER ACS_LLCORNER ACS_LRCORNER ACS_HLINE ACS_VLINE).

(** On a well-formed window of at least three rows and three columns
    [DrawBorder] returns, and the window it returns has the four corner
    glyphs on the corner cells, the horizontal bar on the other cells of the
    top and bottom rows and the vertical bar on the other cells of the first
    and last columns, as glyph overrides; every cell keeps its code points,
    component and attributes, the cells inside the frame are untouched, and
    dimensions, position and cursor are kept. *)
Theorem DrawBorder_draws_the_frame (win : Window) :
  wfWindow win -> 3 <= rows win -> 3 <= cols win ->
  exists win',
    DrawBorder' win = Ok win'
    /\ paints (borderGlyph' (N.to_nat (rows win)) (N.to_nat (cols win))) win win'
    /\ wfWindow win'.
Proof.
  intros Hwf Hrows Hcols.
  pose proof Hwf as (_ & _ & Hrmax & Hcmax).
  assert (Hrm : rows win < uintModulus) by (change uintModulus with (2 ^ 64); lia).
  assert (Hcm : cols win < uintModulus) by (change uintModulus with (2 ^ 64); lia).
  unfold DrawBorder.
  replace (rows win <? 3) with false by (symmetry; apply N.ltb_ge; lia).
  replace (cols win <? 3) with false by (symmetry; apply N.ltb_ge; lia).
  cbn [orb]. cbv zeta.
  rewrite !(usub_small (rows win) 1), !(usub_small (cols win) 1) by lia.
  unfold forRange.
  destruct (setAcs_paints win 0 0 ACS_ULCORNER Hwf) as (w1 & -> & Hp1); [lia|lia|].
  cbn [bind].
  pose proof Hp1 as ((Hr1 & Hc1 & _) & _).
  pose proof (paints_wf _ _ _ Hwf Hp1) as Hwf1.
  destruct (hline_loop_paints 0 ACS_HLINE (N.to_nat (cols win - 1 - 1)) 1 w1 Hwf1)
    as (w2 & -> & Hp2); [lia|lia|].
  cbn [bind].
  pose proof Hp2 as ((Hr2 & Hc2 & _) & _).
  pose proof (paints_wf _ _ _ Hwf1 Hp2) as Hwf2.
  pose proof (paints_trans _ _ _ _ _ Hp1 Hp2) as Hq2.
  destruct (setAcs_paints w2 0 (cols win - 1) ACS_URCORNER Hwf2)
    as (w3 & -> & Hp3); [lia|lia|].
  cbn [bind].
  pose proof Hp3 as ((Hr3 & Hc3 & _) & _).
  pose proof (paints_wf _ _ _ Hwf2 Hp3) as Hwf3.
  pose proof (paints_trans _ _ _ _ _ Hq2 Hp3) as Hq3.
  destruct (vline_loop_paints (cols win - 1) ACS_VLINE
              (N.to_nat (rows win - 1 - 1)) 1 w3 Hwf3)
    as (w4 & -> & Hp4); [lia|lia|].
  cbn [bind].
  pose proof Hp4 as ((Hr4 & Hc4 & _) & _).
  pose proof (paints_wf _ _ _ Hwf3 Hp4) as Hwf4.
  pose proof (paints_trans _ _ _ _ _ Hq3 Hp4) as Hq4.
  destruct (setAcs_paints w4 (rows win - 1) 0 ACS_LLCORNER Hwf4)
    as (w5 & -> & Hp5); [lia|lia|].
  cbn [bind].
  pose proof Hp5 as ((Hr5 & Hc5 & _) & _).
  pose proof (paints_wf _ _ _ Hwf4 Hp5) as Hwf5.
  pose proof (paints_trans _ _ _ _ _ Hq4 Hp5) as Hq5.
  destruct (hline_loop_paints (rows win - 1) ACS_HLINE
              (N.to_nat (cols win - 1 - 1)) 1 w5 Hwf5)
    as (w6 & -> & Hp6); [lia|lia|].
  cbn [bind].
  pose proof Hp6 as ((Hr6 & Hc6 & _) & _).
  pose proof (paints_wf _ _ _ Hwf5 Hp6) as Hwf6.
  pose proof (paints_trans _ _ _ _ _ Hq5 Hp6) as Hq6.
  destruct (setAcs_paints w6 (rows win - 1) (cols win - 1) ACS_LRCORNER Hwf6)
    as (w7 & -> & Hp7); [lia|lia|].
  pose proof (paints_wf _ _ _ Hwf6 Hp7) as Hwf7.
  pose proof (paints_trans _ _ _ _ _ Hq6 Hp7) as Hq7.
  exists w7. split; [reflexivity|]. split; [|exact Hwf7].
  eapply paints_ext; [|exact Hq7].
  intros i j c Hc. cbv beta.
  destruct (cellOf_in_range win i j c Hwf Hc) as [Hi Hj].
  unfold borderGlyph.
  change (N.to_nat 0) with 0%nat. change (N.to_nat 1) with 1%nat.
  replace (N.to_nat (rows win - 1)) with (N.to_nat (rows win) - 1)%nat by lia.
  replace (N.to_nat (cols win - 1)) with (N.to_nat (cols win) - 1)%nat by lia.
  replace (N.to_nat (cols win - 1 - 1)) with (N.to_nat (cols win) - 2)%nat by lia.
  replace (N.to_nat (rows win - 1 - 1)) with (N.to_nat (rows win) - 2)%nat by lia.
  case_nat_tests.
Qed.

End Border.

Lemma DrawBorder_draws_the_frame_witness :
  exists win',
    DrawBorder 1 2 3 4 5 6 sampleWindow = Ok win'
    /\ (acs_char ∘ style) <$> cellOf win' 0 4 = Some 2
    /\ (acs_char ∘ style) <$> cellOf win' 1 0 = Some 6
    /\ cellOf win' 1 2 = cellOf sampleWindow 1 2.
Proof.
  assert (Hcell : forall i j, (i < 3)%nat -> (j < 5)%nat ->
                              cellOf sampleWindow i j = Some zeroCell).
  { intros i j Hi Hj.
    do 3 (destruct i as [|i]; [do 5 (destruct j as [|j]; [reflexivity|]); lia|]).
    lia. }
  destruct (DrawBorder_draws_the_frame 1 2 3 4 5 6 sampleWindow sampleWindow_wf)
    as (win' & Hrun & (_ & _ & _ & Hcells) & _).
  - vm_compute. discriminate.
  - vm_compute. discriminate.
  - exists win'. split; [exact Hrun|]. split_and!.
    + rewrite (Hcells 0%nat 4%nat zeroCell) by (apply Hcell; lia). reflexivity.
    + rewrite (Hcells 1%nat 0%nat zeroCell) by (apply Hcell; lia). reflexivity.
    + rewrite (Hcells 1%nat 2%nat zeroCell) by (apply Hcell; lia).
      rewrite Hcell by lia. reflexivity.
Defined.

End GridProps.
